(** * ETF portfolio tracker: valuation engine, dividend performance, CSV backup

    A shallow embedding of the calculation code of the tracker
    ([utils/calculations.ts], the [summary], [handleExportCSV] and
    [handleImportCSV] parts of the application component, and the
    rebalancing and yearly-performance parts of the dashboard), together
    with the properties its specification states about them.

    JavaScript's [number] is kept abstract behind the class [Number]; the
    code is written once against that interface and read at three
    implementations:
    - [Q], exact rational arithmetic: finite numbers without rounding
      error, the reading under which the algebraic statements are proved;
    - [float], IEEE 754 binary64 as the kernel implements it: the
      bit-exact reading, used to evaluate the code on concrete inputs;
    - [xnum], exact rationals with a NaN: the reading used where text is
      parsed into numbers. *)

From Stdlib Require Import ZArith QArith Qround Qabs Qfield Lqa Lia.
From Stdlib Require Import List String Ascii Bool Permutation Sorted.
From Stdlib Require PrimFloat FloatOps SpecFloat Uint63 DecimalString.
Import ListNotations.

Local Close Scope Q_scope.
Local Open Scope string_scope.
Local Open Scope list_scope.

(** ** The number interface *)

Class Number (N : Type) : Type := {
  lit : Q -> N;                 (* a numeric literal, by its decimal value *)
  num_add : N -> N -> N;
  num_sub : N -> N -> N;
  num_mul : N -> N -> N;
  num_div : N -> N -> N;
  Math_abs : N -> N;
  Math_round : N -> N;
  strict_eq : N -> N -> bool;   (* === *)
  num_gt : N -> N -> bool;      (* > *)
  isNaN : N -> bool
}.

Arguments lit {N _} q%_Q.

Declare Scope num_scope.
Delimit Scope num_scope with num.
Notation "x + y" := (num_add x y) : num_scope.
Notation "x - y" := (num_sub x y) : num_scope.
Notation "x * y" := (num_mul x y) : num_scope.
Notation "x / y" := (num_div x y) : num_scope.
Notation "x === y" := (strict_eq x y) (at level 70, no associativity) : num_scope.
Notation "x >? y" := (num_gt x y) (at level 70, no associativity) : num_scope.

(** *** Exact rationals *)

(** [Math.round]: the nearest integer, a tie going towards plus infinity. *)
Definition Q_round (x : Q) : Q := inject_Z (Qfloor (x + (1 # 2))%Q).

#[export] Instance Number_Q : Number Q := {|
  lit q := q;
  num_add := Qplus;
  num_sub := Qminus;
  num_mul := Qmult;
  num_div := Qdiv;
  Math_abs := Qabs;
  Math_round := Q_round;
  strict_eq := Qeq_bool;
  num_gt x y := negb (Qle_bool x y);
  isNaN _ := false
|}.

(** *** binary64 *)

Definition f64_of_Z (z : Z) : PrimFloat.float :=
  match z with
  | Z0 => PrimFloat.zero
  | Zpos _ => PrimFloat.of_uint63 (Uint63.of_Z z)
  | Zneg p => PrimFloat.opp (PrimFloat.of_uint63 (Uint63.of_Z (Zpos p)))
  end.

(** A decimal literal denotes the double nearest to it: the quotient of
    two exactly representable integers, which division rounds once. *)
Definition f64_lit (q : Q) : PrimFloat.float :=
  PrimFloat.div (f64_of_Z (Qnum q)) (f64_of_Z (Zpos (Qden q))).

(** The exact value of a finite double. *)
Definition f64_value (x : PrimFloat.float) : option Q :=
  match FloatOps.Prim2SF x with
  | SpecFloat.S754_zero _ => Some 0%Q
  | SpecFloat.S754_finite s m e =>
      Some (inject_Z (if s then Zneg m else Zpos m) * Qpower 2 e)%Q
  | _ => None
  end.

(** [Math.round] on a double: NaN, the infinities, the zeros and the
    doubles without a fractional part are returned as they are; the others
    go to floor(x + 1/2), computed exactly, with the sign of [x] kept on a
    zero result. *)
Definition f64_round (x : PrimFloat.float) : PrimFloat.float :=
  match FloatOps.Prim2SF x with
  | SpecFloat.S754_finite s m e =>
      if (0 <=? e)%Z then x
      else
        let v := (inject_Z (if s then Zneg m else Zpos m) * Qpower 2 e)%Q in
        let z := Qfloor (v + (1 # 2))%Q in
        if (s && (z =? 0)%Z)%bool then PrimFloat.opp PrimFloat.zero
        else f64_of_Z z
  | _ => x
  end.

#[export] Instance Number_f64 : Number PrimFloat.float := {|
  lit := f64_lit;
  num_add := PrimFloat.add;
  num_sub := PrimFloat.sub;
  num_mul := PrimFloat.mul;
  num_div := PrimFloat.div;
  Math_abs := PrimFloat.abs;
  Math_round := f64_round;
  strict_eq := PrimFloat.eqb;
  num_gt x y := PrimFloat.ltb y x;
  isNaN := PrimFloat.is_nan
|}.

(** ** types.ts *)

Module AssetType.
Definition STOCK : string := "STOCK".
Definition BOND : string := "BOND".
End AssetType.

(** [type] holds the enum's runtime value, a string: the CSV import casts
    whatever text the column holds. *)
Module Holding.
Record t (N : Type) : Type := mk {
  id : string;
  name : string;
  code : string;
  type : string;
  quantity : N;
  avgPrice : N;
  currentPrice : N
}.
Arguments mk {N}.
Arguments id {N}.
Arguments name {N}.
Arguments code {N}.
Arguments type {N}.
Arguments quantity {N}.
Arguments avgPrice {N}.
Arguments currentPrice {N}.
End Holding.

(** [CalculatedHolding extends Holding]: the holding's own fields are the
    record [holding], as the spread [...holding] copies them. *)
Module CalculatedHolding.
Record t (N : Type) : Type := mk {
  holding : Holding.t N;
  marketValueRaw : N;
  cost : N;
  presentValue : N;
  profit : N;
  roi : N
}.
Arguments mk {N}.
Arguments holding {N}.
Arguments marketValueRaw {N}.
Arguments cost {N}.
Arguments presentValue {N}.
Arguments profit {N}.
Arguments roi {N}.
End CalculatedHolding.

Module DividendRecord.
Record t (N : Type) : Type := mk {
  id : string;
  date : string;
  exDividendDate : option string;
  ticker : string;
  amount : N;
  note : option string
}.
Arguments mk {N}.
Arguments id {N}.
Arguments date {N}.
Arguments exDividendDate {N}.
Arguments ticker {N}.
Arguments amount {N}.
Arguments note {N}.
End DividendRecord.

Module PortfolioSummary.
Record t (N : Type) : Type := mk {
  totalAssets : N;
  stockValue : N;
  bondValue : N;
  cashValue : N;
  totalCost : N;
  totalProfit : N;
  totalRoi : N;
  stockRatio : N;
  bondRatio : N
}.
Arguments mk {N}.
Arguments totalAssets {N}.
Arguments stockValue {N}.
Arguments bondValue {N}.
Arguments cashValue {N}.
Arguments totalCost {N}.
Arguments totalProfit {N}.
Arguments totalRoi {N}.
Arguments stockRatio {N}.
Arguments bondRatio {N}.
End PortfolioSummary.

(** ** utils/calculations.ts *)

Section Calculations.
Context {N : Type} `{Number N}.
Local Open Scope num_scope.

Definition FEE_RATE : N := lit 0.001425.
Definition FEE_DISCOUNT : N := lit 0.28.
Definition TAX_RATE_STOCK : N := lit 0.001.
Definition TAX_RATE_BOND : N := lit 0.

Definition calculateCost (holding : Holding.t N) : N :=
  let baseCost := Holding.quantity holding * Holding.avgPrice holding in
  let fee := baseCost * FEE_RATE * FEE_DISCOUNT in
  Math_round (baseCost + fee).

Definition calculatePresentValue (holding : Holding.t N) : N :=
  let marketValue := Holding.quantity holding * Holding.currentPrice holding in
  let fee := marketValue * FEE_RATE * FEE_DISCOUNT in
  let tax :=
    if String.eqb (Holding.type holding) AssetType.STOCK
    then marketValue * TAX_RATE_STOCK
    else lit 0 in
  Math_round (marketValue - fee - tax).

Definition enrichHolding (holding : Holding.t N) : CalculatedHolding.t N :=
  let cost := calculateCost holding in
  let presentValue := calculatePresentValue holding in
  let profit := presentValue - cost in
  let roi := if cost === lit 0 then lit 0 else (profit / cost) * lit 100 in
  let marketValueRaw := Holding.quantity holding * Holding.currentPrice holding in
  {| CalculatedHolding.holding := holding;
     CalculatedHolding.marketValueRaw := marketValueRaw;
     CalculatedHolding.cost := cost;
     CalculatedHolding.presentValue := presentValue;
     CalculatedHolding.profit := profit;
     CalculatedHolding.roi := roi |}.

End Calculations.

(** ** constants.ts *)

Section Constants.
Context {N : Type} `{Number N}.

Definition INITIAL_CASH : N := lit 1000000.

Definition INITIAL_HOLDINGS : list (Holding.t N) :=
  [ Holding.mk "1" "元大台灣50" "0050" AssetType.STOCK
      (lit 22000) (lit 62.35) (lit 63.7);
    Holding.mk "2" "元大高股息" "0056" AssetType.STOCK
      (lit 20000) (lit 35.96) (lit 36.54);
    Holding.mk "5" "群益台灣精選高息" "00919" AssetType.STOCK
      (lit 40000) (lit 21.62) (lit 22.46);
    Holding.mk "3" "元大美債20年" "00679B" AssetType.BOND
      (lit 45000) (lit 27.62) (lit 27.27);
    Holding.mk "4" "元大投資級公司債" "00720B" AssetType.BOND
      (lit 30000) (lit 33.74) (lit 33.69);
    Holding.mk "6" "群益ESG投等債20+" "00937B" AssetType.BOND
      (lit 45000) (lit 15.17) (lit 15.07) ].

End Constants.

(** ** Array.prototype.sort

    A stable sort: an element moves behind a later one only when the
    comparator puts it after it (a positive result). For a comparator that
    is a consistent ordering, which both comparators of the application
    are on numbers that are not NaN, this is the order the language
    defines. *)

Section ArraySort.
Context {N : Type} `{Number N} {A : Type}.
Variable compareFn : A -> A -> N.
Local Open Scope num_scope.

Fixpoint sort_insert (x : A) (l : list A) : list A :=
  match l with
  | [] => [x]
  | y :: l' => if compareFn x y >? lit 0 then y :: sort_insert x l' else x :: l
  end.

Definition Array_sort (l : list A) : list A := fold_right sort_insert [] l.

End ArraySort.

(** [Array.prototype.indexOf] on an array of strings: -1 when absent. *)
Fixpoint indexOf_from (l : list string) (x : string) (i : Z) : Z :=
  match l with
  | [] => (-1)%Z
  | y :: l' => if String.eqb y x then i else indexOf_from l' x (i + 1)%Z
  end.

Definition indexOf (l : list string) (x : string) : Z := indexOf_from l x 0.

(** ** The application component: derived state *)

Section Portfolio.
Context {N : Type} `{Number N}.
Local Open Scope num_scope.

Definition customOrder : list string :=
  ["0050"; "0056"; "00919"; "00679B"; "00720B"; "00937B"].

Definition compareByCustomOrder (a b : CalculatedHolding.t N) : N :=
  let indexA := indexOf customOrder (Holding.code (CalculatedHolding.holding a)) in
  let indexB := indexOf customOrder (Holding.code (CalculatedHolding.holding b)) in
  if (negb (indexA =? -1)%Z && negb (indexB =? -1)%Z)%bool
  then lit (inject_Z (indexA - indexB))
  else if negb (indexA =? -1)%Z then lit (-1)
  else if negb (indexB =? -1)%Z then lit 1
  else lit 0.

Definition calculatedHoldings (holdings : list (Holding.t N))
  : list (CalculatedHolding.t N) :=
  Array_sort compareByCustomOrder (map enrichHolding holdings).

Definition isType (ty : string) (h : CalculatedHolding.t N) : bool :=
  String.eqb (Holding.type (CalculatedHolding.holding h)) ty.

Definition summary (calculatedHoldings : list (CalculatedHolding.t N)) (cash : N)
  : PortfolioSummary.t N :=
  let stockHoldings := filter (isType AssetType.STOCK) calculatedHoldings in
  let bondHoldings := filter (isType AssetType.BOND) calculatedHoldings in
  let stockValue :=
    fold_left (fun sum h => sum + CalculatedHolding.presentValue h) stockHoldings (lit 0) in
  let bondValue :=
    fold_left (fun sum h => sum + CalculatedHolding.presentValue h) bondHoldings (lit 0) in
  let totalCost :=
    fold_left (fun sum h => sum + CalculatedHolding.cost h) calculatedHoldings (lit 0) in
  let totalInvestedValue := stockValue + bondValue in
  let totalAssets := totalInvestedValue + cash in
  let totalProfit := totalInvestedValue - totalCost in
  let totalRoi :=
    if totalCost === lit 0 then lit 0 else (totalProfit / totalCost) * lit 100 in
  let stockRatio :=
    if totalInvestedValue === lit 0 then lit 0
    else (stockValue / totalInvestedValue) * lit 100 in
  let bondRatio :=
    if totalInvestedValue === lit 0 then lit 0
    else (bondValue / totalInvestedValue) * lit 100 in
  {| PortfolioSummary.totalAssets := totalAssets;
     PortfolioSummary.stockValue := stockValue;
     PortfolioSummary.bondValue := bondValue;
     PortfolioSummary.cashValue := cash;
     PortfolioSummary.totalCost := totalCost;
     PortfolioSummary.totalProfit := totalProfit;
     PortfolioSummary.totalRoi := totalRoi;
     PortfolioSummary.stockRatio := stockRatio;
     PortfolioSummary.bondRatio := bondRatio |}.

End Portfolio.

(** ** The dashboard: rebalancing *)

Module Rebalancing.
Record t (N : Type) : Type := mk {
  investedTotal : N;
  diff : N;
  switchAmount : N;
  switchAction : string;
  inflowAmount : N;
  inflowType : string
}.
Arguments mk {N}.
Arguments investedTotal {N}.
Arguments diff {N}.
Arguments switchAmount {N}.
Arguments switchAction {N}.
Arguments inflowAmount {N}.
Arguments inflowType {N}.
End Rebalancing.

(** What [rebalancingCalculations] returns: the sentinel object
    [{ action: 'none', amount: 0, text }] or the two suggestions. *)
Inductive RebalancingResult (N : Type) : Type :=
| NoPosition (action : string) (amount : N) (text : string)
| Suggestion (r : Rebalancing.t N).
Arguments NoPosition {N}.
Arguments Suggestion {N}.

Section Dashboard.
Context {N : Type} `{Number N}.
Local Open Scope num_scope.

Definition rebalancingCalculations (summary : PortfolioSummary.t N)
  : RebalancingResult N :=
  let investedTotal :=
    PortfolioSummary.stockValue summary + PortfolioSummary.bondValue summary in
  if investedTotal === lit 0
  then NoPosition "none" (lit 0) "無投資部位"
  else
    let targetStockValue := investedTotal * lit 0.6 in
    let diff := targetStockValue - PortfolioSummary.stockValue summary in
    let switchAmount := Math_abs diff in
    let switchAction := if diff >? lit 0 then "buy_stock" else "buy_bond" in
    let '(inflowAmount, inflowType) :=
      if diff >? lit 0
      then ((targetStockValue - PortfolioSummary.stockValue summary) / lit 0.4, "stock")
      else
        let targetBondValue := investedTotal * lit 0.4 in
        ((targetBondValue - PortfolioSummary.bondValue summary) / lit 0.6, "bond") in
    Suggestion
      {| Rebalancing.investedTotal := investedTotal;
         Rebalancing.diff := diff;
         Rebalancing.switchAmount := switchAmount;
         Rebalancing.switchAction := switchAction;
         Rebalancing.inflowAmount := inflowAmount;
         Rebalancing.inflowType := inflowType |}.

End Dashboard.

(** ** The string runtime

    A string is the sequence of bytes of its UTF-8 text. *)

Definition bytes (l : list nat) : string :=
  string_of_list_ascii (map ascii_of_nat l).

Definition LF : ascii := ascii_of_nat 10.
Definition CR : ascii := ascii_of_nat 13.
Definition comma : ascii := ","%char.
Definition dquote : ascii := ascii_of_nat 34.

Fixpoint take (n : nat) (s : string) : string :=
  match n, s with
  | S n', String c s' => String c (take n' s')
  | _, _ => ""
  end.

Fixpoint drop (n : nat) (s : string) : string :=
  match n, s with
  | S n', String _ s' => drop n' s'
  | _, _ => s
  end.

Definition startsWith (s p : string) : bool := String.prefix p s.

Definition endsWith (s p : string) : bool :=
  (String.length p <=? String.length s)%nat
  && String.eqb (drop (String.length s - String.length p) s) p.

(** [s.slice(1, -1)] *)
Definition slice_1_m1 (s : string) : string :=
  take (String.length s - 2) (drop 1 s).

(** [s.split(sep)] for a separator of one character. *)
Fixpoint split (sep : ascii) (s : string) : list string :=
  match s with
  | "" => [""]
  | String c s' =>
      match split sep s' with
      | p :: ps => if Ascii.eqb c sep then "" :: p :: ps else String c p :: ps
      | [] => [""]
      end
  end.

(** [text.split(/\r?\n/)]: a line ends at a line feed, and a carriage
    return right before that line feed belongs to the separator. *)
Fixpoint split_lines (s : string) : list string :=
  match s with
  | "" => [""]
  | String c s' =>
      match split_lines s' with
      | p :: ps =>
          if Ascii.eqb c LF then "" :: p :: ps
          else if (Ascii.eqb c CR && startsWith s' (String LF ""))%bool then p :: ps
          else String c p :: ps
      | [] => [""]
      end
  end.

(** The white space and line terminators of the language, which [trim]
    and [parseFloat] strip: TAB, LF, VT, FF, CR, SP, U+00A0, U+1680,
    U+2000 to U+200A, U+2028, U+2029, U+202F, U+205F, U+3000, U+FEFF. *)
Definition whiteSpace : list string :=
  map bytes
    [ [9]; [10]; [11]; [12]; [13]; [32]; [194; 160]; [225; 154; 128];
      [226; 128; 128]; [226; 128; 129]; [226; 128; 130]; [226; 128; 131];
      [226; 128; 132]; [226; 128; 133]; [226; 128; 134]; [226; 128; 135];
      [226; 128; 136]; [226; 128; 137]; [226; 128; 138]; [226; 128; 168];
      [226; 128; 169]; [226; 128; 175]; [226; 129; 159]; [227; 128; 128];
      [239; 187; 191] ].

Definition leadingWhiteSpace (s : string) : option string :=
  find (startsWith s) whiteSpace.

Definition trailingWhiteSpace (s : string) : option string :=
  find (endsWith s) whiteSpace.

Fixpoint trimStart_loop (fuel : nat) (s : string) : string :=
  match fuel with
  | O => s
  | S fuel' =>
      match leadingWhiteSpace s with
      | Some w => trimStart_loop fuel' (drop (String.length w) s)
      | None => s
      end
  end.

Fixpoint trimEnd_loop (fuel : nat) (s : string) : string :=
  match fuel with
  | O => s
  | S fuel' =>
      match trailingWhiteSpace s with
      | Some w => trimEnd_loop fuel' (take (String.length s - String.length w) s)
      | None => s
      end
  end.

(** Each round removes at least one byte, so the length is fuel enough. *)
Definition trimStart (s : string) : string := trimStart_loop (String.length s) s.
Definition trimEnd (s : string) : string := trimEnd_loop (String.length s) s.
Definition trim (s : string) : string := trimEnd (trimStart s).

(** The export's escaping of a note: every double quote is doubled. *)
Fixpoint double_quotes (s : string) : string :=
  match s with
  | "" => ""
  | String c s' =>
      if Ascii.eqb c dquote
      then String dquote (String dquote (double_quotes s'))
      else String c (double_quotes s')
  end.

(** The import's inverse: every pair of double quotes becomes one; the
    pairs are matched from the left and do not overlap, as a global regular
    expression replaces. *)
Fixpoint undouble_quotes (s : string) : string :=
  match s with
  | "" => ""
  | String c s' =>
      match s' with
      | String c' s'' =>
          if (Ascii.eqb c dquote && Ascii.eqb c' dquote)%bool
          then String dquote (undouble_quotes s'')
          else String c (undouble_quotes s')
      | "" => String c ""
      end
  end.

(** The loop of the import that looks for the fourth comma: the index of
    the comma that makes [commaCount] reach 4, scanning from index [i];
    -1 when the string ends first. *)
Fixpoint fourthCommaIndex (s : string) (commaCount : nat) (i : Z) : Z :=
  match s with
  | "" => (-1)%Z
  | String c s' =>
      if Ascii.eqb c comma
      then if (S commaCount =? 4)%nat then i
           else fourthCommaIndex s' (S commaCount) (i + 1)%Z
      else fourthCommaIndex s' commaCount (i + 1)%Z
  end.

(** [l[i]] for an integer index: undefined out of range. *)
Definition nthZ {A : Type} (l : list A) (i : Z) : option A :=
  if (i <? 0)%Z then None else nth_error l (Z.to_nat i).

Fixpoint mapi_from {A B : Type} (f : A -> Z -> B) (l : list A) (i : Z) : list B :=
  match l with
  | [] => []
  | x :: l' => f x i :: mapi_from f l' (i + 1)%Z
  end.

(** [l.map((item, index) => ...)] *)
Definition mapi {A B : Type} (f : A -> Z -> B) (l : list A) : list B :=
  mapi_from f l 0.

(** ** Numbers and text: the host's conversions *)

Class NumberText (N : Type) : Type := {
  toString : N -> string;            (* String(x), a template's ${x} *)
  toFixed : N -> nat -> string;      (* x.toFixed(digits) *)
  parseFloat : string -> N;
  parseInt : string -> N;
  Date_getFullYear : string -> N     (* new Date(s).getFullYear() *)
}.

Section Truthiness.
Context {N : Type} `{Number N}.
Local Open Scope num_scope.

(** A number is falsy when it is zero or NaN. *)
Definition truthy (x : N) : bool := (negb (x === lit 0) && negb (isNaN x))%bool.

(** [v || 0] on a number that may be undefined. *)
Definition orZero (v : option N) : N :=
  match v with
  | Some x => if truthy x then x else lit 0
  | None => lit 0
  end.

(** The key comparison of [Map]: equal numbers, or NaN with NaN. *)
Definition sameValueZero (x y : N) : bool :=
  ((x === y) || (isNaN x && isNaN y))%bool.

(** A [Map<number, number>], in insertion order. *)
Fixpoint Map_get (m : list (N * N)) (k : N) : option N :=
  match m with
  | [] => None
  | (k', v) :: m' => if sameValueZero k' k then Some v else Map_get m' k
  end.

Fixpoint Map_set (m : list (N * N)) (k v : N) : list (N * N) :=
  match m with
  | [] => [(k, v)]
  | (k', v') :: m' =>
      if sameValueZero k' k then (k', v) :: m' else (k', v') :: Map_set m' k v
  end.

End Truthiness.

(** ** The dividend tracker: yearly performance *)

Module YearAmount.
Record t (N : Type) : Type := mk { year : string; amount : N }.
Arguments mk {N}.
Arguments year {N}.
Arguments amount {N}.
End YearAmount.

Module PerformanceRow.
Record t (N : Type) : Type := mk {
  year : string;
  amount : N;
  growth : N;
  diff : N;
  hasPrev : bool
}.
Arguments mk {N}.
Arguments year {N}.
Arguments amount {N}.
Arguments growth {N}.
Arguments diff {N}.
Arguments hasPrev {N}.
End PerformanceRow.

Section DividendTracker.
Context {N : Type} `{Number N} `{NumberText N}.
Local Open Scope num_scope.

(** The reducer's step: the first entry of the year takes the amount, or a
    new entry is pushed at the end. *)
Fixpoint addToYear (acc : list (YearAmount.t N)) (year : string) (amount : N)
  : list (YearAmount.t N) :=
  match acc with
  | [] => [YearAmount.mk year amount]
  | x :: acc' =>
      if String.eqb (YearAmount.year x) year
      then YearAmount.mk (YearAmount.year x) (YearAmount.amount x + amount) :: acc'
      else x :: addToYear acc' year amount
  end.

Definition yearlyTrendData (records : list (DividendRecord.t N)) (trendTicker : string)
  : list (YearAmount.t N) :=
  let filteredRecords :=
    if String.eqb trendTicker "ALL" then records
    else filter (fun r => String.eqb (DividendRecord.ticker r) trendTicker) records in
  Array_sort
    (fun a b => parseInt (YearAmount.year a) - parseInt (YearAmount.year b))
    (fold_left
       (fun acc curr =>
          let year := hd "" (split "-"%char (DividendRecord.date curr)) in
          addToYear acc year (DividendRecord.amount curr))
       filteredRecords []).

Definition yearlyPerformance (yearlyTrendData : list (YearAmount.t N))
  : list (PerformanceRow.t N) :=
  let dataWithGrowth :=
    mapi
      (fun item index =>
         let prev := nthZ yearlyTrendData (index - 1)%Z in
         let growth :=
           match prev with
           | Some prev =>
               if YearAmount.amount prev >? lit 0
               then ((YearAmount.amount item - YearAmount.amount prev)
                     / YearAmount.amount prev) * lit 100
               else lit 0
           | None => lit 0
           end in
         let diff :=
           match prev with
           | Some prev => YearAmount.amount item - YearAmount.amount prev
           | None => lit 0
           end in
         PerformanceRow.mk (YearAmount.year item) (YearAmount.amount item) growth diff
           (match prev with Some _ => true | None => false end))
      yearlyTrendData in
  rev dataWithGrowth.

(** The text of the growth cell of a row of the yearly table. *)
Definition growthCell (row : PerformanceRow.t N) : string :=
  if PerformanceRow.hasPrev row
  then toFixed (PerformanceRow.growth row) 1 ++ "%"
  else "-".

End DividendTracker.

(** ** The application component: CSV backup *)

Module AppState.
Record t (N : Type) : Type := mk {
  holdings : list (Holding.t N);
  cash : N;
  dividendRecords : list (DividendRecord.t N)
}.
Arguments mk {N}.
Arguments holdings {N}.
Arguments cash {N}.
Arguments dividendRecords {N}.
End AppState.

(** The accumulators of the import's pass over the lines. *)
Module Parsed.
Record t (N : Type) : Type := mk {
  section : string;
  tempCash : option N;
  tempHoldings : list (Holding.t N);
  tempDividends : list (DividendRecord.t N)
}.
Arguments mk {N}.
Arguments section {N}.
Arguments tempCash {N}.
Arguments tempHoldings {N}.
Arguments tempDividends {N}.
End Parsed.

(** The two notifications of the import. *)
Inductive Alert : Type :=
| ImportSucceeded      (* "匯入成功！" *)
| ImportFormatInvalid. (* "匯入失敗：格式不正確。..." *)

Section Backup.
Context {N : Type} `{Number N} `{NumberText N}.
Local Open Scope num_scope.
Local Open Scope string_scope.

Definition BOM : string := bytes [239; 187; 191]%nat.
Definition nl : string := String LF "".

Definition yearlyMap (dividendRecords : list (DividendRecord.t N)) : list (N * N) :=
  fold_left
    (fun m r =>
       let year := Date_getFullYear (DividendRecord.date r) in
       Map_set m year (orZero (Map_get m year) + DividendRecord.amount r))
    dividendRecords [].

Definition sortedYears (yearlyMap : list (N * N)) : list N :=
  Array_sort (fun a b => a - b) (map fst yearlyMap).

(** The growth and difference columns of a year of the export. *)
Definition yearlyGrowthAndDiff (yearlyMap : list (N * N)) (sortedYears : list N)
    (year : N) (index : Z) : string * string :=
  let amount := orZero (Map_get yearlyMap year) in
  if (index >? 0)%Z
  then
    let prevAmount :=
      match nthZ sortedYears (index - 1)%Z with
      | Some prevYear => orZero (Map_get yearlyMap prevYear)
      | None => lit 0
      end in
    let diff := amount - prevAmount in
    let diffStr := toString diff in
    if prevAmount >? lit 0
    then
      let growth := ((amount - prevAmount) / prevAmount) * lit 100 in
      (toFixed growth 2 ++ "%", diffStr)
    else ("-", diffStr)
  else ("-", "-").

Definition yearlyPerformanceLine (yearlyMap : list (N * N)) (sortedYears : list N)
    (year : N) (index : Z) : string :=
  let amount := orZero (Map_get yearlyMap year) in
  let '(growthStr, diffStr) := yearlyGrowthAndDiff yearlyMap sortedYears year index in
  toString year ++ "," ++ toString amount ++ "," ++ growthStr ++ "," ++ diffStr ++ nl.

Definition holdingLine (h : CalculatedHolding.t N) : string :=
  let r := CalculatedHolding.holding h in
  Holding.id r ++ "," ++ Holding.name r ++ "," ++ Holding.code r ++ ","
  ++ Holding.type r ++ "," ++ toString (Holding.quantity r) ++ ","
  ++ toString (Holding.avgPrice r) ++ "," ++ toString (Holding.currentPrice r) ++ ","
  ++ toString (CalculatedHolding.cost h) ++ ","
  ++ toString (CalculatedHolding.presentValue h) ++ ","
  ++ toString (CalculatedHolding.profit h) ++ ","
  ++ toFixed (CalculatedHolding.roi h) 2 ++ "%" ++ nl.

Definition dividendLine (r : DividendRecord.t N) : string :=
  let safeNote :=
    String dquote
      (double_quotes (match DividendRecord.note r with Some n => n | None => "" end)
       ++ String dquote "") in
  DividendRecord.id r ++ "," ++ DividendRecord.date r ++ ","
  ++ DividendRecord.ticker r ++ "," ++ toString (DividendRecord.amount r) ++ ","
  ++ safeNote ++ nl.

Definition summaryLine (summary : PortfolioSummary.t N) : string :=
  toString (PortfolioSummary.totalAssets summary) ++ ","
  ++ toString (PortfolioSummary.stockValue summary) ++ ","
  ++ toString (PortfolioSummary.bondValue summary) ++ ","
  ++ toString (PortfolioSummary.cashValue summary) ++ ","
  ++ toString (PortfolioSummary.totalCost summary) ++ ","
  ++ toString (PortfolioSummary.totalProfit summary) ++ ","
  ++ toFixed (PortfolioSummary.totalRoi summary) 2 ++ "%,"
  ++ toFixed (PortfolioSummary.stockRatio summary) 2 ++ "%,"
  ++ toFixed (PortfolioSummary.bondRatio summary) 2 ++ "%" ++ nl ++ nl.

(** The text [handleExportCSV] puts in the file. *)
Definition handleExportCSV (state : AppState.t N) : string :=
  let calculatedHoldings := calculatedHoldings (AppState.holdings state) in
  let summary := summary calculatedHoldings (AppState.cash state) in
  let content := BOM in
  let content := content ++ "[SUMMARY]" ++ nl in
  let content :=
    content
    ++ "Total Assets,Stock Value,Bond Value,Cash Value,Total Cost,Total Profit,Total ROI,Stock Ratio,Bond Ratio"
    ++ nl in
  let content := content ++ summaryLine summary in
  let content := content ++ "[CASH]" ++ nl in
  let content := content ++ toString (AppState.cash state) ++ nl ++ nl in
  let content := content ++ "[HOLDINGS]" ++ nl in
  let content :=
    content
    ++ "id,name,code,type,quantity,avgPrice,currentPrice,cost,presentValue,profit,roi"
    ++ nl in
  let content :=
    fold_left (fun content h => content ++ holdingLine h) calculatedHoldings content in
  let content := content ++ nl in
  let content := content ++ "[YEARLY_PERFORMANCE]" ++ nl in
  let content := content ++ "Year,Total Amount,YoY Growth,YoY Diff" ++ nl in
  let yearlyMap := yearlyMap (AppState.dividendRecords state) in
  let sortedYears := sortedYears yearlyMap in
  let content :=
    fold_left (fun content line => content ++ line)
      (mapi (yearlyPerformanceLine yearlyMap sortedYears) sortedYears) content in
  let content := content ++ nl in
  let content := content ++ "[DIVIDENDS]" ++ nl in
  let content := content ++ "id,date,ticker,amount,note" ++ nl in
  fold_left (fun content r => content ++ dividendLine r)
    (AppState.dividendRecords state) content.

(** [reader.readAsText(file)]: the decoder drops a leading byte order mark. *)
Definition readAsText (file : string) : string :=
  if startsWith file BOM then drop (String.length BOM) file else file.

Definition setSection (p : Parsed.t N) (section : string) : Parsed.t N :=
  Parsed.mk section (Parsed.tempCash p) (Parsed.tempHoldings p) (Parsed.tempDividends p).

Definition part (parts : list string) (i : nat) : string := nth i parts "".

(** The body of [lines.forEach]. *)
Definition importLine (p : Parsed.t N) (line : string) : Parsed.t N :=
  let trimmed := trim line in
  if String.eqb trimmed "" then p
  else if String.eqb trimmed "[SUMMARY]" then setSection p "SUMMARY"
  else if String.eqb trimmed "[CASH]" then setSection p "CASH"
  else if String.eqb trimmed "[HOLDINGS]" then setSection p "HOLDINGS"
  else if String.eqb trimmed "[DIVIDENDS]" then setSection p "DIVIDENDS"
  else if String.eqb trimmed "[YEARLY_PERFORMANCE]" then setSection p "YEARLY_PERFORMANCE"
  else if (String.eqb (Parsed.section p) "SUMMARY"
           || String.eqb (Parsed.section p) "YEARLY_PERFORMANCE")%bool then p
  else if String.eqb (Parsed.section p) "CASH" then
    let val := parseFloat trimmed in
    if negb (isNaN val)
    then Parsed.mk (Parsed.section p) (Some val) (Parsed.tempHoldings p)
           (Parsed.tempDividends p)
    else p
  else if String.eqb (Parsed.section p) "HOLDINGS" then
    if startsWith trimmed "id," then p
    else
      let parts := split comma trimmed in
      if (7 <=? List.length parts)%nat
      then
        Parsed.mk (Parsed.section p) (Parsed.tempCash p)
          (Parsed.tempHoldings p
           ++ [ Holding.mk (part parts 0) (part parts 1) (part parts 2) (part parts 3)
                  (parseFloat (part parts 4)) (parseFloat (part parts 5))
                  (parseFloat (part parts 6)) ])%list
          (Parsed.tempDividends p)
      else p
  else if String.eqb (Parsed.section p) "DIVIDENDS" then
    if startsWith trimmed "id," then p
    else
      let splitIndex := fourthCommaIndex trimmed 0 0 in
      if negb (splitIndex =? -1)%Z
      then
        let firstPart := take (Z.to_nat splitIndex) trimmed in
        let parts := split comma firstPart in
        let note := drop (Z.to_nat (splitIndex + 1)) trimmed in
        let note :=
          if (startsWith note (String dquote "") && endsWith note (String dquote ""))%bool
          then undouble_quotes (slice_1_m1 note)
          else note in
        if (List.length parts =? 4)%nat
        then
          Parsed.mk (Parsed.section p) (Parsed.tempCash p) (Parsed.tempHoldings p)
            (Parsed.tempDividends p
             ++ [ DividendRecord.mk (part parts 0) (part parts 1) None (part parts 2)
                    (parseFloat (part parts 3)) (Some note) ])%list
        else p
      else p
  else p.

Definition parseBackup (text : string) : Parsed.t N :=
  fold_left importLine (split_lines text) (Parsed.mk "" None [] []).

(** [!tempCash]: no cash value was read, or the one read is falsy. *)
Definition noCash (tempCash : option N) : bool :=
  match tempCash with
  | Some c => negb (truthy c)
  | None => true
  end.

(** What [reader.onload] does with the text of the file: the state after
    it and the alerts it raised. [confirmed] is the user's answer to the
    confirmation dialog, which is asked only when the guard passes. *)
Definition handleImportCSV (text : string) (confirmed : bool) (state : AppState.t N)
  : AppState.t N * list Alert :=
  let p := parseBackup text in
  if ((List.length (Parsed.tempHoldings p) =? 0)%nat
      && noCash (Parsed.tempCash p)
      && (List.length (Parsed.tempDividends p) =? 0)%nat)%bool
  then (state, [ImportFormatInvalid])
  else if confirmed
  then
    (AppState.mk (Parsed.tempHoldings p)
       (match Parsed.tempCash p with
        | Some c => c
        | None => AppState.cash state
        end)
       (Parsed.tempDividends p),
     [ImportSucceeded])
  else (state, []).

End Backup.

(** *** Exact rationals with a NaN

    The finite numbers are exact and kept in lowest terms; there are no
    infinities and no negative zero: a division by zero gives NaN, and text
    that would read as an infinity reads as NaN. *)

Inductive xnum : Type :=
| XNaN
| XFin (q : Q).

Definition xnum_lift2 (f : Q -> Q -> Q) (x y : xnum) : xnum :=
  match x, y with
  | XFin a, XFin b => XFin (Qred (f a b))
  | _, _ => XNaN
  end.

Definition xnum_div (x y : xnum) : xnum :=
  match x, y with
  | XFin a, XFin b => if Qeq_bool b 0%Q then XNaN else XFin (Qred (a / b)%Q)
  | _, _ => XNaN
  end.

Definition xnum_lift1 (f : Q -> Q) (x : xnum) : xnum :=
  match x with
  | XFin a => XFin (Qred (f a))
  | XNaN => XNaN
  end.

Definition xnum_test2 (f : Q -> Q -> bool) (x y : xnum) : bool :=
  match x, y with
  | XFin a, XFin b => f a b
  | _, _ => false
  end.

#[export] Instance Number_xnum : Number xnum := {|
  lit q := XFin (Qred q);
  num_add := xnum_lift2 Qplus;
  num_sub := xnum_lift2 Qminus;
  num_mul := xnum_lift2 Qmult;
  num_div := xnum_div;
  Math_abs := xnum_lift1 Qabs;
  Math_round := xnum_lift1 Q_round;
  strict_eq := xnum_test2 Qeq_bool;
  num_gt := xnum_test2 (fun a b => negb (Qle_bool a b));
  isNaN x := match x with XNaN => true | XFin _ => false end
|}.

(** **** Printing *)

(** The character of a digit; a larger number gives its last digit. *)
Definition digit_char (d : Z) : ascii := ascii_of_nat (48 + Z.to_nat (d mod 10)).

Definition natural_string (z : Z) : string :=
  DecimalString.NilZero.string_of_uint (N.to_uint (Z.to_N z)).

(** The first [fuel] digits of [r / den], for [0 <= r < den], up to the
    last one that is not zero. *)
Fixpoint fraction_digits (fuel : nat) (r den : Z) : string :=
  match fuel with
  | O => ""
  | S fuel' =>
      if (r =? 0)%Z then ""
      else String (digit_char (r * 10 / den))
             (fraction_digits fuel' ((r * 10) mod den) den)
  end.

(** [String(x)]: the decimal expansion, cut after twenty fractional
    digits. *)
Definition xnum_toString (x : xnum) : string :=
  match x with
  | XNaN => "NaN"
  | XFin q =>
      let n := Z.abs (Qnum q) in
      let d := Zpos (Qden q) in
      (if (Qnum q <? 0)%Z then "-" else "")
      ++ natural_string (n / d)
      ++ (if (n mod d =? 0)%Z then "" else "." ++ fraction_digits 20 (n mod d) d)
  end.

(** Exactly [k] digits of [z], the lowest ones, zeros in front. *)
Fixpoint fixed_digits (k : nat) (z : Z) : string :=
  match k with
  | O => ""
  | S k' => String (digit_char ((z / 10 ^ Z.of_nat k') mod 10)) (fixed_digits k' z)
  end.

(** [x.toFixed(digits)]: the magnitude rounded to that many fractional
    digits, a tie going up, behind the sign of [x]. *)
Definition xnum_toFixed (x : xnum) (digits : nat) : string :=
  match x with
  | XNaN => "NaN"
  | XFin q =>
      let scale := (10 ^ Z.of_nat digits)%Z in
      let n := Qfloor (Qabs q * inject_Z scale + (1 # 2))%Q in
      (if (Qnum q <? 0)%Z then "-" else "")
      ++ natural_string (n / scale)
      ++ (match digits with O => "" | S _ => "." ++ fixed_digits digits (n mod scale) end)
  end.

(** **** Parsing *)

Definition is_digit (c : ascii) : bool :=
  ((48 <=? nat_of_ascii c) && (nat_of_ascii c <=? 57))%nat.

Definition digit_value (c : ascii) : Z := Z.of_nat (nat_of_ascii c - 48).

(** The longest run of digits at the start of [s]: its value on top of
    [acc], its length on top of [count], and the rest. *)
Fixpoint read_digits (s : string) (acc : Z) (count : nat) : Z * nat * string :=
  match s with
  | String c s' =>
      if is_digit c then read_digits s' (acc * 10 + digit_value c) (S count)
      else (acc, count, s)
  | "" => (acc, count, "")
  end.

Definition read_sign (s : string) : bool * string :=
  match s with
  | String c s' =>
      if Ascii.eqb c "-"%char then (true, s')
      else if Ascii.eqb c "+"%char then (false, s')
      else (false, s)
  | "" => (false, "")
  end.

Definition read_exponent (s : string) : Z :=
  match s with
  | String c s' =>
      if (Ascii.eqb c "e"%char || Ascii.eqb c "E"%char)%bool
      then
        let '(negative, s'') := read_sign s' in
        let '(e, count, _) := read_digits s'' 0 0 in
        if (count =? 0)%nat then 0%Z else if negative then (- e)%Z else e
      else 0%Z
  | "" => 0%Z
  end.

(** [parseFloat]: leading white space, a sign, digits with an optional
    fraction and exponent; the longest prefix of that form counts, and NaN
    when there is none. *)
Definition xnum_parseFloat (s : string) : xnum :=
  let '(negative, s0) := read_sign (trimStart s) in
  let '(ip, n1, s1) := read_digits s0 0 0 in
  let '(mantissa, n2, s2) :=
    match s1 with
    | String c s' =>
        if Ascii.eqb c "."%char
        then
          let '(m, n2, s2) := read_digits s' ip 0 in
          if ((n1 =? 0) && (n2 =? 0))%nat then (ip, 0%nat, s1) else (m, n2, s2)
        else (ip, 0%nat, s1)
    | "" => (ip, 0%nat, "")
    end in
  if ((n1 =? 0) && (n2 =? 0))%nat then XNaN
  else
    let e := (read_exponent s2 - Z.of_nat n2)%Z in
    let v := (inject_Z mantissa * Qpower 10 e)%Q in
    XFin (Qred (if negative then - v else v)%Q).

Definition is_hex_digit (c : ascii) : bool :=
  let n := nat_of_ascii c in
  (is_digit c || ((65 <=? n) && (n <=? 70)) || ((97 <=? n) && (n <=? 102)))%nat%bool.

Definition hex_digit_value (c : ascii) : Z :=
  let n := nat_of_ascii c in
  if is_digit c then Z.of_nat (n - 48)
  else if (n <=? 70)%nat then Z.of_nat (n - 55)
  else Z.of_nat (n - 87).

Fixpoint read_hex_digits (s : string) (acc : Z) (count : nat) : Z * nat :=
  match s with
  | String c s' =>
      if is_hex_digit c then read_hex_digits s' (acc * 16 + hex_digit_value c) (S count)
      else (acc, count)
  | "" => (acc, count)
  end.

(** [parseInt] without a radix: leading white space, a sign, then
    hexadecimal digits behind [0x] or [0X], decimal digits otherwise. *)
Definition xnum_parseInt (s : string) : xnum :=
  let '(negative, s0) := read_sign (trimStart s) in
  let '(v, count) :=
    if (startsWith s0 "0x" || startsWith s0 "0X")%bool
    then read_hex_digits (drop 2 s0) 0 0
    else let '(v, count, _) := read_digits s0 0 0 in (v, count) in
  if (count =? 0)%nat then XNaN
  else XFin (inject_Z (if negative then - v else v)%Z).

(** [new Date(s).getFullYear()] for the text of a date input,
    [YYYY-MM-DD], read in a time zone at or east of Greenwich (the
    tracker's is UTC+8), where the local year is the year written; NaN for
    any other text. *)
Definition xnum_Date_getFullYear (s : string) : xnum :=
  let '(y, n1, s1) := read_digits s 0 0 in
  let '(m, n2, s2) := read_digits (drop 1 s1) 0 0 in
  let '(d, n3, s3) := read_digits (drop 1 s2) 0 0 in
  if ((n1 =? 4)%nat && (n2 =? 2)%nat && (n3 =? 2)%nat
      && startsWith s1 "-" && startsWith s2 "-" && String.eqb s3 ""
      && (1 <=? m)%Z && (m <=? 12)%Z && (1 <=? d)%Z && (d <=? 31)%Z)%bool
  then XFin (inject_Z y)
  else XNaN.

#[export] Instance NumberText_xnum : NumberText xnum := {|
  toString := xnum_toString;
  toFixed := xnum_toFixed;
  parseFloat := xnum_parseFloat;
  parseInt := xnum_parseInt;
  Date_getFullYear := xnum_Date_getFullYear
|}.

(** ** The application component: editing the holdings *)

(** The fields [handleUpdateHolding] can set. *)
Inductive HoldingField : Type :=
| avgPrice_field
| currentPrice_field
| quantity_field.

Section Editing.
Context {N : Type} `{Number N}.

(** The object spread with one field set to [value]. *)
Definition setField (h : Holding.t N) (field : HoldingField) (value : N) : Holding.t N :=
  match field with
  | avgPrice_field =>
      Holding.mk (Holding.id h) (Holding.name h) (Holding.code h) (Holding.type h)
        (Holding.quantity h) value (Holding.currentPrice h)
  | currentPrice_field =>
      Holding.mk (Holding.id h) (Holding.name h) (Holding.code h) (Holding.type h)
        (Holding.quantity h) (Holding.avgPrice h) value
  | quantity_field =>
      Holding.mk (Holding.id h) (Holding.name h) (Holding.code h) (Holding.type h)
        value (Holding.avgPrice h) (Holding.currentPrice h)
  end.

Definition handleUpdateHolding (id : string) (field : HoldingField) (value : N)
    (prev : list (Holding.t N)) : list (Holding.t N) :=
  map (fun h => if String.eqb (Holding.id h) id then setField h field value else h) prev.

Definition handleAddHolding (newHolding : Holding.t N) (prev : list (Holding.t N))
  : list (Holding.t N) :=
  prev ++ [newHolding].

Definition handleDeleteHolding (id : string) (prev : list (Holding.t N))
  : list (Holding.t N) :=
  filter (fun h => negb (String.eqb (Holding.id h) id)) prev.

(** The update of [handleRefreshPrices]: a holding takes the quote of its
    code when the price map has one that is truthy. The price map is read
    through its lookup, undefined for a code it has no entry for. *)
Definition refreshedHoldings (newPrices : string -> option N) (prev : list (Holding.t N))
  : list (Holding.t N) :=
  map (fun h =>
         match newPrices (Holding.code h) with
         | Some quote =>
             if truthy quote then setField h currentPrice_field quote else h
         | None => h
         end)
    prev.

(** The count the same pass keeps of the holdings it updated. *)
Definition updatedCount (newPrices : string -> option N) (prev : list (Holding.t N))
  : nat :=
  List.length
    (filter (fun h =>
               match newPrices (Holding.code h) with
               | Some quote => truthy quote
               | None => false
               end)
       prev).

End Editing.

(** ** The dashboard: allocation *)

Module Slice.
Record t (N : Type) : Type := mk { name : string; value : N; type : string }.
Arguments mk {N}.
Arguments name {N}.
Arguments value {N}.
Arguments type {N}.
End Slice.

(** [array.includes(x)] on strings. *)
Definition includes (l : list string) (x : string) : bool := existsb (String.eqb x) l.

Section Allocation.
Context {N : Type} `{Number N}.
Local Open Scope num_scope.

Definition allocationData (summary : PortfolioSummary.t N) : list (Slice.t N) :=
  [ Slice.mk "股票 ETF" (PortfolioSummary.stockValue summary) AssetType.STOCK;
    Slice.mk "債券 ETF" (PortfolioSummary.bondValue summary) AssetType.BOND;
    Slice.mk "定存現金" (PortfolioSummary.cashValue summary) "CASH" ].

Definition pieChartData (summary : PortfolioSummary.t N) (isCashExcluded : bool)
    (hiddenSlices : list string) : list (Slice.t N) :=
  let data := allocationData summary in
  let data :=
    if isCashExcluded
    then filter (fun d => negb (String.eqb (Slice.type d) "CASH")) data
    else data in
  filter (fun d => negb (includes hiddenSlices (Slice.name d))) data.

Definition pieTotalValue (pieChartData : list (Slice.t N)) : N :=
  fold_left (fun acc curr => acc + Slice.value curr) pieChartData (lit 0).

Definition toggleSlice (name : string) (prev : list string) : list string :=
  if includes prev name
  then filter (fun n => negb (String.eqb n name)) prev
  else prev ++ [name].

Definition stockGap (summary : PortfolioSummary.t N) : N :=
  PortfolioSummary.stockRatio summary - lit 60.

End Allocation.

(** ** The dividend tracker: totals *)

Module TickerValue.
Record t (N : Type) : Type := mk { name : string; value : N }.
Arguments mk {N}.
Arguments name {N}.
Arguments value {N}.
End TickerValue.

Section DividendTotals.
Context {N : Type} `{Number N} `{NumberText N}.
Local Open Scope num_scope.

(** The comparison of two date strings, [a <= b] and [a > b]: by their
    characters, from the left. *)
Definition string_le (a b : string) : bool := String.leb a b.
Definition string_gt (a b : string) : bool := String.ltb b a.

Definition selectedYearRecords (records : list (DividendRecord.t N)) (selectedYear : N)
  : list (DividendRecord.t N) :=
  filter (fun r => Date_getFullYear (DividendRecord.date r) === selectedYear) records.

Definition sumAmounts (records : list (DividendRecord.t N)) : N :=
  fold_left (fun sum r => sum + DividendRecord.amount r) records (lit 0).

Definition receivedInSelectedYear (selectedYearRecords : list (DividendRecord.t N))
    (today : string) : N :=
  sumAmounts (filter (fun r => string_le (DividendRecord.date r) today) selectedYearRecords).

Definition pendingInSelectedYear (selectedYearRecords : list (DividendRecord.t N))
    (today : string) : N :=
  sumAmounts (filter (fun r => string_gt (DividendRecord.date r) today) selectedYearRecords).

Definition totalInSelectedYear (selectedYearRecords : list (DividendRecord.t N))
    (today : string) : N :=
  receivedInSelectedYear selectedYearRecords today
  + pendingInSelectedYear selectedYearRecords today.

Definition totalDividendsAllTime (records : list (DividendRecord.t N)) : N :=
  sumAmounts records.

Definition totalReceivedAllTime (records : list (DividendRecord.t N)) (today : string) : N :=
  sumAmounts (filter (fun r => string_le (DividendRecord.date r) today) records).

Definition totalPortfolioCost (holdings : list (Holding.t N)) : N :=
  fold_left (fun sum h => sum + Holding.avgPrice h * Holding.quantity h) holdings (lit 0).

Definition yieldOnCost (totalInSelectedYear totalPortfolioCost : N) : N :=
  if totalPortfolioCost >? lit 0
  then (totalInSelectedYear / totalPortfolioCost) * lit 100
  else lit 0.

Definition avgMonthlyIncome (totalInSelectedYear : N) : N := totalInSelectedYear / lit 12.

Definition goalProgress (avgMonthlyIncome monthlyGoal : N) : N :=
  (avgMonthlyIncome / monthlyGoal) * lit 100.

(** The reducer's step of [tickerData]. *)
Fixpoint addToTicker (acc : list (TickerValue.t N)) (ticker : string) (amount : N)
  : list (TickerValue.t N) :=
  match acc with
  | [] => [TickerValue.mk ticker amount]
  | x :: acc' =>
      if String.eqb (TickerValue.name x) ticker
      then TickerValue.mk (TickerValue.name x) (TickerValue.value x + amount) :: acc'
      else x :: addToTicker acc' ticker amount
  end.

Definition tickerData (selectedYearRecords : list (DividendRecord.t N))
  : list (TickerValue.t N) :=
  Array_sort (fun a b => TickerValue.value b - TickerValue.value a)
    (fold_left
       (fun acc curr =>
          addToTicker acc (DividendRecord.ticker curr) (DividendRecord.amount curr))
       selectedYearRecords []).

(** [handleUpdateRecord] for the amount, and [handleDelete] once
    confirmed. *)
Definition handleUpdateRecordAmount (id : string) (value : N)
    (records : list (DividendRecord.t N)) : list (DividendRecord.t N) :=
  map (fun r =>
         if String.eqb (DividendRecord.id r) id
         then DividendRecord.mk (DividendRecord.id r) (DividendRecord.date r)
                (DividendRecord.exDividendDate r) (DividendRecord.ticker r) value
                (DividendRecord.note r)
         else r)
    records.

Definition handleDeleteRecord (id : string) (records : list (DividendRecord.t N))
  : list (DividendRecord.t N) :=
  filter (fun r => negb (String.eqb (DividendRecord.id r) id)) records.

End DividendTotals.

(** ** Vocabulary of the statements *)

(** The sum of a list of exact rationals. *)
Definition Qsum (l : list Q) : Q := fold_right Qplus 0%Q l.

(** The holding of the specification's worked example, whatever its id,
    name and code. *)
Definition worked_example {N : Type} `{Number N} (id name code : string)
  : Holding.t N :=
  Holding.mk id name code AssetType.STOCK (lit 22000) (lit 62.35) (lit 63.7).

(** Two dividend years, the first of which paid nothing. *)
Definition empty_year_then_income : list (DividendRecord.t xnum) :=
  [ DividendRecord.mk "1" "2023-05-01" None "0056" (lit 0) (Some "");
    DividendRecord.mk "2" "2024-05-01" None "0056" (lit 100) (Some "") ].

(** The state the examples import into. *)
Definition an_earlier_state : AppState.t xnum :=
  AppState.mk
    [Holding.mk "9" "元大台灣50" "0050" AssetType.STOCK (lit 5) (lit 60) (lit 61)]
    (lit 300)
    [DividendRecord.mk "8" "2022-01-10" None "0050" (lit 40) (Some "old")].

Definition lines (l : list string) : string :=
  fold_right (fun line rest => (line ++ String LF rest)%string) "" l.

(** A backup whose first holdings row has text for a quantity and whose
    second has three columns only. *)
Definition malformed_backup : string :=
  lines [ "[HOLDINGS]";
          "id,name,code,type,quantity,avgPrice,currentPrice";
          "1,A,0050,STOCK,many,62.35,63.7";
          "2,B,0056" ].

Definition zero_cash_backup : string := lines ["[CASH]"; "0"].
Definition some_cash_backup : string := lines ["[CASH]"; "250.5"].


(** *** What the backup can carry *)

Fixpoint all_chars (P : ascii -> bool) (s : string) : bool :=
  match s with
  | "" => true
  | String c s' => P c && all_chars P s'
  end.

Definition not_comma (c : ascii) : bool := negb (Ascii.eqb c comma).
Definition not_LF (c : ascii) : bool := negb (Ascii.eqb c LF).

(** The text of a column: no comma and no line feed. *)
Definition plain (s : string) : bool :=
  all_chars (fun c => not_comma c && not_LF c) s.

(** The characters of a printed number: digits, sign, point, exponent
    mark, and the letters of NaN and Infinity. *)
Definition numeric_char (c : ascii) : bool :=
  existsb (Ascii.eqb c) (list_ascii_of_string "0123456789+-.eInfinityNaN").

Definition numeric_text (s : string) : bool :=
  negb (String.eqb s "") && all_chars numeric_char s.

(** A holding the backup carries: plain columns, an id that does not
    begin with white space and is not the header's, and numbers that read
    back from their print. *)
Definition holding_exportable {N : Type} `{NumberText N} (h : Holding.t N) : Prop :=
  plain (Holding.id h) = true /\ plain (Holding.name h) = true
  /\ plain (Holding.code h) = true /\ plain (Holding.type h) = true
  /\ leadingWhiteSpace (Holding.id h) = None /\ Holding.id h <> "id"
  /\ parseFloat (toString (Holding.quantity h)) = Holding.quantity h
  /\ parseFloat (toString (Holding.avgPrice h)) = Holding.avgPrice h
  /\ parseFloat (toString (Holding.currentPrice h)) = Holding.currentPrice h.

Definition note_text {N : Type} (r : DividendRecord.t N) : string :=
  match DividendRecord.note r with Some n => n | None => "" end.

(** A dividend record the backup carries: the same for its columns, and
    a note without a line feed. *)
Definition dividend_exportable {N : Type} `{NumberText N} (r : DividendRecord.t N)
  : Prop :=
  plain (DividendRecord.id r) = true /\ plain (DividendRecord.date r) = true
  /\ plain (DividendRecord.ticker r) = true
  /\ leadingWhiteSpace (DividendRecord.id r) = None /\ DividendRecord.id r <> "id"
  /\ parseFloat (toString (DividendRecord.amount r)) = DividendRecord.amount r
  /\ all_chars not_LF (note_text r) = true.

(** A dividend record as the backup gives it back: the five columns of
    the file, the note always present. *)
Definition as_imported {N : Type} (r : DividendRecord.t N) : DividendRecord.t N :=
  DividendRecord.mk (DividendRecord.id r) (DividendRecord.date r) None
    (DividendRecord.ticker r) (DividendRecord.amount r) (Some (note_text r)).

(** The holdings in the order the application shows and exports them. *)
Definition displayOrder {N : Type} `{Number N} (holdings : list (Holding.t N))
  : list (Holding.t N) :=
  map CalculatedHolding.holding (calculatedHoldings holdings).

(** The rows of the export, without their line feeds. *)
Section ExportRows.
Context {N : Type} `{Number N} `{NumberText N}.
Local Open Scope string_scope.

Definition holdingRow (h : CalculatedHolding.t N) : string :=
  let r := CalculatedHolding.holding h in
  Holding.id r ++ "," ++ Holding.name r ++ "," ++ Holding.code r ++ ","
  ++ Holding.type r ++ "," ++ toString (Holding.quantity r) ++ ","
  ++ toString (Holding.avgPrice r) ++ "," ++ toString (Holding.currentPrice r) ++ ","
  ++ toString (CalculatedHolding.cost h) ++ ","
  ++ toString (CalculatedHolding.presentValue h) ++ ","
  ++ toString (CalculatedHolding.profit h) ++ ","
  ++ toFixed (CalculatedHolding.roi h) 2 ++ "%".

Definition dividendRow (r : DividendRecord.t N) : string :=
  DividendRecord.id r ++ "," ++ DividendRecord.date r ++ ","
  ++ DividendRecord.ticker r ++ "," ++ toString (DividendRecord.amount r) ++ ","
  ++ String dquote (double_quotes (note_text r) ++ String dquote "").

(** The columns of a dividend row before the note. *)
Definition dividendColumns (r : DividendRecord.t N) : string :=
  DividendRecord.id r ++ "," ++ DividendRecord.date r ++ ","
  ++ DividendRecord.ticker r ++ "," ++ toString (DividendRecord.amount r).

Definition summaryRow (summary : PortfolioSummary.t N) : string :=
  toString (PortfolioSummary.totalAssets summary) ++ ","
  ++ toString (PortfolioSummary.stockValue summary) ++ ","
  ++ toString (PortfolioSummary.bondValue summary) ++ ","
  ++ toString (PortfolioSummary.cashValue summary) ++ ","
  ++ toString (PortfolioSummary.totalCost summary) ++ ","
  ++ toString (PortfolioSummary.totalProfit summary) ++ ","
  ++ toFixed (PortfolioSummary.totalRoi summary) 2 ++ "%,"
  ++ toFixed (PortfolioSummary.stockRatio summary) 2 ++ "%,"
  ++ toFixed (PortfolioSummary.bondRatio summary) 2 ++ "%".

Definition yearlyRow (yearlyMap : list (N * N)) (sortedYears : list N)
    (year : N) (index : Z) : string :=
  let amount := orZero (Map_get yearlyMap year) in
  toString year ++ "," ++ toString amount ++ ","
  ++ fst (yearlyGrowthAndDiff yearlyMap sortedYears year index) ++ ","
  ++ snd (yearlyGrowthAndDiff yearlyMap sortedYears year index).

Definition exportLines (state : AppState.t N) : list string :=
  let chs := calculatedHoldings (AppState.holdings state) in
  let ym := yearlyMap (AppState.dividendRecords state) in
  let sy := sortedYears ym in
  ([ "[SUMMARY]";
     "Total Assets,Stock Value,Bond Value,Cash Value,Total Cost,Total Profit,Total ROI,Stock Ratio,Bond Ratio";
     summaryRow (summary chs (AppState.cash state));
     "";
     "[CASH]";
     toString (AppState.cash state);
     "";
     "[HOLDINGS]";
     "id,name,code,type,quantity,avgPrice,currentPrice,cost,presentValue,profit,roi" ]
   ++ map holdingRow chs
   ++ [ ""; "[YEARLY_PERFORMANCE]"; "Year,Total Amount,YoY Growth,YoY Diff" ]
   ++ mapi (yearlyRow ym sy) sy
   ++ [ ""; "[DIVIDENDS]"; "id,date,ticker,amount,note" ]
   ++ map dividendRow (AppState.dividendRecords state))%list.

End ExportRows.

(** *** The ends of a line *)

Fixpoint lastChar (s : string) : option ascii :=
  match s with
  | "" => None
  | String c "" => Some c
  | String _ s' => lastChar s'
  end.

(** A line of the file: no line feed inside, no carriage return at its end. *)
Definition line_ok (l : string) : Prop :=
  all_chars not_LF l = true /\ lastChar l <> Some CR.

(** The bytes a white space sequence can begin with, and end with. *)
Definition is_ws_lead (c : ascii) : bool :=
  existsb (fun w => match w with String c' _ => Ascii.eqb c' c | "" => true end)
    whiteSpace.

Definition is_ws_tail (c : ascii) : bool :=
  existsb (fun w => match lastChar w with Some c' => Ascii.eqb c' c | None => true end)
    whiteSpace.

(** A state whose holdings are not in display order and whose dividend
    records have an ex-dividend date and a note with commas and quotes. *)
Definition a_portfolio : AppState.t xnum :=
  AppState.mk
    [ Holding.mk "5" "群益台灣精選高息" "00919" AssetType.STOCK
        (lit 40000) (lit 21.62) (lit 22.46);
      Holding.mk "1" "元大台灣50" "0050" AssetType.STOCK
        (lit 22000) (lit 62.35) (lit 63.7) ]
    (lit 1000000)
    [ DividendRecord.mk "1" "2023-10-20" (Some "2023-09-18") "0056" (lit 24000)
        (Some (String "Q" (String "3" (String "," (String " " (String dquote
           (String "x" (String dquote (String "," (String "y" ""))))))))));
      DividendRecord.mk "2" "2023-11-15" None "00878" (lit 12000.5) None ].

(** *** More vocabulary *)

(** The five section marks of a backup. *)
Definition sectionMarks : list string :=
  ["[SUMMARY]"; "[CASH]"; "[HOLDINGS]"; "[DIVIDENDS]"; "[YEARLY_PERFORMANCE]"].

Definition isSectionMark (s : string) : bool := existsb (String.eqb s) sectionMarks.

(** A text without a section mark on any of its lines. *)
Definition markless_backup : string := lines ["1,A,0050,STOCK,10,62.35,63.7"; "250.5"].

(** The place of a code in the display order: its index in
    [customOrder], and 6, behind them all, for any other code. *)
Definition displayRank (code : string) : Z :=
  let i := indexOf customOrder code in
  if (i =? -1)%Z then 6%Z else i.

Definition rankOf {N : Type} (h : CalculatedHolding.t N) : Z :=
  displayRank (Holding.code (CalculatedHolding.holding h)).

(** [a] goes behind [b] in a sort: the comparator's answer is positive. *)
Definition goes_behind {N : Type} `{Number N} {A : Type} (compareFn : A -> A -> N)
    (a b : A) : bool :=
  num_gt (compareFn a b) (lit 0).

(** *** Grouping *)

(** The step of a grouping reducer on pairs of a key and a total: the
    first pair of the key takes the amount, or a new pair is put at the
    end. *)
Fixpoint addToKey (acc : list (string * Q)) (key : string) (amount : Q)
  : list (string * Q) :=
  match acc with
  | [] => [(key, amount)]
  | (k, v) :: acc' =>
      if String.eqb k key then (k, (v + amount)%Q) :: acc'
      else (k, v) :: addToKey acc' key amount
  end.

(** The total a list of pairs gives to a key. *)
Definition totalOf (key : string) (l : list (string * Q)) : Q :=
  Qsum (map snd (filter (fun kv => String.eqb (fst kv) key) l)).

(** The year [yearlyTrendData] reads off a record: the text before the
    first hyphen of its date. *)
Definition yearOfRecord {N : Type} (r : DividendRecord.t N) : string :=
  hd "" (split "-"%char (DividendRecord.date r)).

(** The records [yearlyTrendData] looks at: all of them, or those of one
    ticker. *)
Definition trendRecords {N : Type} (records : list (DividendRecord.t N))
    (trendTicker : string) : list (DividendRecord.t N) :=
  if String.eqb trendTicker "ALL" then records
  else filter (fun r => String.eqb (DividendRecord.ticker r) trendTicker) records.

Definition yearPair (x : YearAmount.t Q) : string * Q :=
  (YearAmount.year x, YearAmount.amount x).

Definition tickerPair (x : TickerValue.t Q) : string * Q :=
  (TickerValue.name x, TickerValue.value x).

(** The nine fields of two summaries are equal as rationals. *)
Definition same_summary (s s' : PortfolioSummary.t Q) : Prop :=
  (PortfolioSummary.totalAssets s == PortfolioSummary.totalAssets s'
   /\ PortfolioSummary.stockValue s == PortfolioSummary.stockValue s'
   /\ PortfolioSummary.bondValue s == PortfolioSummary.bondValue s'
   /\ PortfolioSummary.cashValue s == PortfolioSummary.cashValue s'
   /\ PortfolioSummary.totalCost s == PortfolioSummary.totalCost s'
   /\ PortfolioSummary.totalProfit s == PortfolioSummary.totalProfit s'
   /\ PortfolioSummary.totalRoi s == PortfolioSummary.totalRoi s'
   /\ PortfolioSummary.stockRatio s == PortfolioSummary.stockRatio s'
   /\ PortfolioSummary.bondRatio s == PortfolioSummary.bondRatio s')%Q.

(** * Properties *)

(** ** Rounding on exact rationals *)

Local Open Scope Q_scope.

Lemma Q_round_comp (x y : Q) : x == y -> Q_round x = Q_round y.
Proof.
  intros E. unfold Q_round. f_equal. apply Qfloor_comp. rewrite E. reflexivity.
Qed.



(** Unfolds the number interface at exact rationals and leaves the
    rational operations folded. *)
Ltac q_red :=
  cbn -[Qabs Qplus Qminus Qmult Qdiv Qinv Qopp Qeq_bool Qle_bool Q_round Qeq Qle Qlt].

Tactic Notation "q_red" "in" hyp(H) :=
  cbn -[Qabs Qplus Qminus Qmult Qdiv Qinv Qopp Qeq_bool Qle_bool Q_round Qeq Qle Qlt]
    in H.

(** Case analysis on every test of the goal. *)
Ltac split_ifs :=
  repeat match goal with
    | |- context [if ?b then _ else _] => destruct b eqn:?
    end.

(** ** The valuation of a holding *)

Section ValuationProperties.
Import Holding.



(** C2, as stated, fails: the cost of the worked example is not 1372248 and
    its present value is not 1399440, neither on exact rationals nor on
    binary64. *)
Lemma worked_example_is_not_1372248_1399440 :
  ~ calculateCost (N := Q) (worked_example "1" "元大台灣50" "0050") == 1372248
  /\ ~ calculatePresentValue (N := Q) (worked_example "1" "元大台灣50" "0050")
       == 1399440
  /\ calculateCost (N := PrimFloat.float) (worked_example "1" "元大台灣50" "0050")
     <> f64_of_Z 1372248
  /\ calculatePresentValue (N := PrimFloat.float)
       (worked_example "1" "元大台灣50" "0050")
     <> f64_of_Z 1399440.
Proof.
  repeat split; vm_compute; discriminate.
Qed.

(** C2, amended. The holding with quantity 22000, avgPrice 62.35,
    currentPrice 63.7 and class STOCK has cost exactly 1372247 and present
    value exactly 1399439, on exact rationals and on binary64 alike. *)
Theorem worked_example_cost_and_present_value (id name code : string) :
  calculateCost (N := Q) (worked_example id name code) = 1372247
  /\ calculatePresentValue (N := Q) (worked_example id name code) = 1399439
  /\ calculateCost (N := PrimFloat.float) (worked_example id name code)
     = f64_of_Z 1372247
  /\ calculatePresentValue (N := PrimFloat.float) (worked_example id name code)
     = f64_of_Z 1399439.
Proof.
  repeat split; vm_compute; reflexivity.
Qed.

(** The raw amounts behind the worked example, before rounding. *)
Example worked_example_raw_amounts :
  22000 * 62.35 * (1 + 0.001425 * 0.28) == 1372247.3083
  /\ 22000 * 63.7 * (1 - 0.001425 * 0.28 - 0.001) == 1399439.4414.
Proof.
  split; vm_compute; reflexivity.
Qed.



End ValuationProperties.

(** ** The portfolio summary *)

Section SummaryProperties.
Import PortfolioSummary.

(** The accumulating sum of a [reduce] is the sum of the list. *)
Lemma reduce_sum {A : Type} (f : A -> Q) (l : list A) (init : Q) :
  fold_left (fun sum h => sum + f h) l init == init + Qsum (map f l).
Proof.
  revert init. induction l as [| x l IH]; intros init.
  - unfold Qsum. simpl. ring.
  - change (fold_left (fun sum h => sum + f h) (x :: l) init)
      with (fold_left (fun sum h => sum + f h) l (init + f x)).
    change (Qsum (map f (x :: l))) with (f x + Qsum (map f l)).
    rewrite IH. ring.
Qed.

Lemma stockValue_is_sum (hs : list (CalculatedHolding.t Q)) (cash : Q) :
  stockValue (summary hs cash)
  == Qsum (map CalculatedHolding.presentValue (filter (isType AssetType.STOCK) hs)).
Proof.
  unfold summary; cbn. rewrite reduce_sum. ring.
Qed.

Lemma bondValue_is_sum (hs : list (CalculatedHolding.t Q)) (cash : Q) :
  bondValue (summary hs cash)
  == Qsum (map CalculatedHolding.presentValue (filter (isType AssetType.BOND) hs)).
Proof.
  unfold summary; cbn. rewrite reduce_sum. ring.
Qed.

Lemma totalCost_is_sum (hs : list (CalculatedHolding.t Q)) (cash : Q) :
  totalCost (summary hs cash) == Qsum (map CalculatedHolding.cost hs).
Proof.
  unfold summary; cbn. rewrite reduce_sum. ring.
Qed.





End SummaryProperties.

(** ** Rebalancing *)

Section RebalancingProperties.
Import PortfolioSummary.

(** C6. For a stock value S >= 0 and a bond value B >= 0 with T = S + B >
    0 and diff = 0.6 T - S: the switch amount is |diff|, to buy stock when
    diff > 0 and to buy bonds otherwise; the inflow amount is diff / 0.4
    when diff > 0 and (0.4 T - B) / 0.6 otherwise; both amounts are
    non-negative, and the inflow put into the underweight class alone
    makes the stock fraction exactly 0.6. When T = 0 the result is the
    sentinel of an empty portfolio. *)
Theorem rebalancing_suggestions (s : PortfolioSummary.t Q) :
  let S := stockValue s in
  let B := bondValue s in
  let T := S + B in
  let diff := 0.6 * T - S in
  (0 <= S -> 0 <= B -> 0 < T ->
   exists r : Rebalancing.t Q,
     rebalancingCalculations s = Suggestion r
     /\ Rebalancing.switchAmount r == Qabs diff
     /\ (0 < diff ->
         Rebalancing.switchAction r = "buy_stock"
         /\ Rebalancing.inflowType r = "stock"
         /\ Rebalancing.inflowAmount r == diff / 0.4
         /\ (S + Rebalancing.inflowAmount r) / (T + Rebalancing.inflowAmount r) == 0.6)
     /\ (diff <= 0 ->
         Rebalancing.switchAction r = "buy_bond"
         /\ Rebalancing.inflowType r = "bond"
         /\ Rebalancing.inflowAmount r == (0.4 * T - B) / 0.6
         /\ S / (T + Rebalancing.inflowAmount r) == 0.6)
     /\ 0 <= Rebalancing.switchAmount r
     /\ 0 <= Rebalancing.inflowAmount r)
  /\ (T == 0 -> rebalancingCalculations s = NoPosition "none" 0 "無投資部位").
Proof.
  intros S B T diff. split.
  - intros HS HB HT.
    unfold rebalancingCalculations; q_red.
    fold S B. fold T.
    destruct (Qeq_bool T 0) eqn:E0.
    { apply Qeq_bool_iff in E0. lra. }
    clear E0.
    assert (Hd : T * 0.6 - S == diff) by (unfold diff; ring).
    destruct (Qle_bool (T * 0.6 - S) 0) eqn:Ele; q_red.
    + (* diff <= 0: bonds are underweight *)
      apply Qle_bool_iff in Ele.
      eexists; split; [reflexivity |]; q_red.
      assert (Hx : (T * 0.4 - B) / 0.6 == (S - 0.6 * T) / 0.6) by (unfold T; field).
      split; [rewrite Hd; reflexivity |].
      split; [intros Hpos; lra |].
      split.
      * intros _. split; [reflexivity |]. split; [reflexivity |].
        split; [field |].
        rewrite Hx.
        assert (Hden : T + (S - 0.6 * T) / 0.6 == S / 0.6) by field.
        rewrite Hden. field. lra.
      * split; [apply Qabs_nonneg |].
        rewrite Hx. apply Qle_shift_div_l; lra.
    + (* diff > 0: stock is underweight *)
      assert (Hpos : 0 < T * 0.6 - S).
      { apply Qnot_le_lt. intros Hle. apply Qle_bool_iff in Hle. congruence. }
      eexists; split; [reflexivity |]; q_red.
      split; [rewrite Hd; reflexivity |].
      split.
      * intros _. split; [reflexivity |]. split; [reflexivity |].
        split; [unfold diff; field |].
        assert (Hnum : S + (T * 0.6 - S) / 0.4 == 0.6 * (B / 0.4)) by (unfold T; field).
        assert (Hden : T + (T * 0.6 - S) / 0.4 == B / 0.4) by (unfold T; field).
        rewrite Hnum, Hden. field. unfold T in Hpos. lra.
      * split; [intros Hle; lra |].
        split; [apply Qabs_nonneg |].
        apply Qle_shift_div_l; lra.
  - intros E0. unfold rebalancingCalculations; q_red. fold S B. fold T.
    apply Qeq_bool_iff in E0. rewrite E0. reflexivity.
Qed.

(** C6 at a portfolio of 500 in stock and 500 in bonds (stock is
    underweight: 250 of new money makes it 750 of 1250), and at one of 800
    in stock and 200 in bonds (bonds are underweight). *)
Lemma rebalancing_suggestions_witness :
  (exists r : Rebalancing.t Q,
     rebalancingCalculations (PortfolioSummary.mk 2000 500 500 1000 900 100 0 50 50)
     = Suggestion r
     /\ Rebalancing.switchAmount r == 100
     /\ Rebalancing.inflowAmount r == 250
     /\ (500 + Rebalancing.inflowAmount r) / (1000 + Rebalancing.inflowAmount r) == 0.6)
  /\ (exists r : Rebalancing.t Q,
        rebalancingCalculations (PortfolioSummary.mk 2000 800 200 1000 900 100 0 80 20)
        = Suggestion r
        /\ Rebalancing.switchAmount r == 200
        /\ Rebalancing.inflowAmount r == 1000 # 3
        /\ 800 / (1000 + Rebalancing.inflowAmount r) == 0.6).
Proof.
  split.
  - destruct (proj1 (rebalancing_suggestions
                       (PortfolioSummary.mk 2000 500 500 1000 900 100 0 50 50)))
      as (r & Hr & Hsw & Hstock & _ & _ & _);
      [q_red; lra | q_red; lra | q_red; lra |].
    exists r. q_red in Hsw. q_red in Hstock.
    destruct Hstock as (_ & _ & Hin & Hfrac); [lra |].
    repeat split.
    + exact Hr.
    + rewrite Hsw. vm_compute. reflexivity.
    + rewrite Hin. vm_compute. reflexivity.
    + rewrite <- Hfrac. apply Qeq_refl.
  - destruct (proj1 (rebalancing_suggestions
                       (PortfolioSummary.mk 2000 800 200 1000 900 100 0 80 20)))
      as (r & Hr & Hsw & _ & Hbond & _ & _);
      [q_red; lra | q_red; lra | q_red; lra |].
    exists r. q_red in Hsw. q_red in Hbond.
    destruct Hbond as (_ & _ & Hin & Hfrac); [lra |].
    repeat split.
    + exact Hr.
    + rewrite Hsw. vm_compute. reflexivity.
    + rewrite Hin. vm_compute. reflexivity.
    + rewrite <- Hfrac. apply Qeq_refl.
Defined.

End RebalancingProperties.

(** ** Yearly dividend performance *)

Section YearlyPerformanceProperties.
Context {N : Type} `{Number N} `{NumberText N}.

(** In the export the first year has no growth. *)
Lemma export_growth_of_first_year (ym : list (N * N)) (sy : list N) (year : N) :
  yearlyGrowthAndDiff ym sy year 0 = ("-", "-").
Proof. reflexivity. Qed.

(** In the export a later year has the growth over the previous year when
    that year's total is positive, and the sentinel otherwise. *)
Lemma export_growth_of_later_year (ym : list (N * N)) (sy : list N) (year : N) (index : Z) :
  (0 < index)%Z ->
  let amount := orZero (Map_get ym year) in
  let prevAmount :=
    match nthZ sy (index - 1)%Z with
    | Some prevYear => orZero (Map_get ym prevYear)
    | None => lit 0
    end in
  fst (yearlyGrowthAndDiff ym sy year index)
  = if num_gt prevAmount (lit 0)
    then (toFixed (num_mul (num_div (num_sub amount prevAmount) prevAmount) (lit 100)) 2
          ++ "%")%string
    else "-".
Proof.
  intros Hpos amount prevAmount. unfold yearlyGrowthAndDiff.
  replace (index >? 0)%Z with true by (symmetry; apply Z.gtb_lt; lia).
  fold amount prevAmount.
  destruct (num_gt prevAmount (lit 0)); reflexivity.
Qed.

Lemma append_percent_is_not_dash (s : string) : (s ++ "%")%string <> "-".
Proof.
  destruct s as [| c [| c' s']]; cbn; discriminate.
Qed.

(** The growth cell of the table is the sentinel exactly on the row
    without a previous year. *)
Lemma growthCell_sentinel (row : PerformanceRow.t N) :
  growthCell row = "-" <-> PerformanceRow.hasPrev row = false.
Proof.
  unfold growthCell. destruct (PerformanceRow.hasPrev row); split; intros E.
  - exfalso. exact (append_percent_is_not_dash _ E).
  - discriminate.
  - reflexivity.
  - reflexivity.
Qed.

End YearlyPerformanceProperties.

(** After a year whose dividends total 0 the table of the dividend
    tracker reports a growth of 0.0 per cent for the next year, while the
    export reports the sentinel for the same records. *)
Theorem table_growth_after_a_year_without_income :
  map (fun row => (PerformanceRow.year row, growthCell row))
    (yearlyPerformance (yearlyTrendData empty_year_then_income "ALL"))
  = [("2024", "0.0%"); ("2023", "-")]
  /\ (let ym := yearlyMap empty_year_then_income in
      let sy := sortedYears ym in
      mapi (fun year index => (toString year, fst (yearlyGrowthAndDiff ym sy year index))) sy
      = [("2023", "-"); ("2024", "-")]).
Proof.
  split; vm_compute; reflexivity.
Qed.

(** ** CSV import *)

Section ImportProperties.
Context {N : Type} `{Number N} `{NumberText N}.

(** A cash value the import has read is not NaN. *)
Lemma importLine_cash_not_NaN (p : Parsed.t N) (line : string) :
  (forall c, Parsed.tempCash p = Some c -> isNaN c = false) ->
  forall c, Parsed.tempCash (importLine p line) = Some c -> isNaN c = false.
Proof.
  intros Hp c. unfold importLine, setSection.
  split_ifs; cbn; try apply Hp.
  intros E. injection E as <-. apply negb_true_iff. assumption.
Qed.

Lemma fold_importLine_cash_not_NaN (ls : list string) (p : Parsed.t N) :
  (forall c, Parsed.tempCash p = Some c -> isNaN c = false) ->
  forall c, Parsed.tempCash (fold_left importLine ls p) = Some c -> isNaN c = false.
Proof.
  revert p. induction ls as [| line ls IH]; intros p Hp; cbn.
  - exact Hp.
  - apply IH. apply importLine_cash_not_NaN. exact Hp.
Qed.

Lemma parseBackup_cash_not_NaN (text : string) (c : N) :
  Parsed.tempCash (parseBackup text) = Some c -> isNaN c = false.
Proof.
  unfold parseBackup. apply fold_importLine_cash_not_NaN. cbn. discriminate.
Qed.

Lemma length_zero_iff_nil {A : Type} (l : list A) :
  (List.length l =? 0)%nat = true <-> l = [].
Proof.
  destruct l; cbn; split; intros E; try reflexivity; discriminate.
Qed.



(** A file that yields no holdings row and no dividend row is
    rejected as invalid, with the state unchanged, when its cash section
    held the value 0, just as when it had no cash section; with any other
    cash value the same file passes the guard, and the import, once the
    user confirms it, sets the cash to that value (declined, it changes
    nothing and raises nothing). *)
Theorem zero_cash_only_backup_is_rejected (text : string) (state : AppState.t N) :
  let p := parseBackup text in
  Parsed.tempHoldings p = [] ->
  Parsed.tempDividends p = [] ->
  (Parsed.tempCash p = None ->
   forall confirmed,
     handleImportCSV text confirmed state = (state, [ImportFormatInvalid]))
  /\ (forall c : N,
        Parsed.tempCash p = Some c ->
        strict_eq c (lit 0) = true ->
        forall confirmed,
          handleImportCSV text confirmed state = (state, [ImportFormatInvalid]))
  /\ (forall c : N,
        Parsed.tempCash p = Some c ->
        strict_eq c (lit 0) = false ->
        handleImportCSV text true state = (AppState.mk [] c [], [ImportSucceeded])
        /\ handleImportCSV text false state = (state, [])).
Proof.
  intros p Hh Hd.
  split; [| split].
  - intros Hc confirmed. unfold handleImportCSV. fold p.
    rewrite Hh, Hd, Hc. reflexivity.
  - intros c Hc Hz confirmed. unfold handleImportCSV. fold p.
    rewrite Hh, Hd, Hc. cbn. unfold truthy. rewrite Hz. reflexivity.
  - intros c Hc Hz.
    pose proof (parseBackup_cash_not_NaN text c Hc) as Hnan.
    unfold handleImportCSV. fold p.
    rewrite Hh, Hd, Hc. cbn. unfold truthy. rewrite Hz, Hnan. cbn.
    split; reflexivity.
Qed.

End ImportProperties.

(** A backup with text where a quantity belongs and with a row of three
    columns is not rejected: it is imported, the first row with a quantity
    that is not a number and the second dropped, with the notification of
    success and not the one of an invalid format. *)
Lemma malformed_backup_is_imported :
  handleImportCSV malformed_backup true an_earlier_state
  = (AppState.mk
       [Holding.mk "1" "A" "0050" "STOCK" XNaN (lit 62.35) (lit 63.7)]
       (lit 300) [],
     [ImportSucceeded])
  /\ handleImportCSV malformed_backup true an_earlier_state
     <> (an_earlier_state, [ImportFormatInvalid]).
Proof.
  split; vm_compute; [reflexivity | discriminate].
Qed.


(** A backup whose only content is a cash of 0, and the same backup with
    a cash of 250.5. *)
Lemma zero_cash_only_backup_is_rejected_witness :
  handleImportCSV zero_cash_backup true an_earlier_state
  = (an_earlier_state, [ImportFormatInvalid])
  /\ handleImportCSV some_cash_backup true an_earlier_state
     = (AppState.mk [] (lit 250.5) [], [ImportSucceeded]).
Proof.
  split.
  - refine (proj1 (proj2 (zero_cash_only_backup_is_rejected zero_cash_backup
                            an_earlier_state _ _))
              (lit 0) _ _ true); vm_compute; reflexivity.
  - refine (proj1 (proj2 (proj2 (zero_cash_only_backup_is_rejected some_cash_backup
                                   an_earlier_state _ _))
                     (lit 250.5) _ _)); vm_compute; reflexivity.
Defined.

(** ** Strings *)

Section StringLemmas.
Local Open Scope string_scope.

Lemma append_nil_r (s : string) : s ++ "" = s.
Proof. induction s as [| c s IH]; cbn; [reflexivity | rewrite IH; reflexivity]. Qed.

Lemma append_assoc (a b c : string) : (a ++ b) ++ c = a ++ (b ++ c).
Proof. induction a as [| x a IH]; cbn; [reflexivity | rewrite IH; reflexivity]. Qed.

Lemma length_append (a b : string) :
  String.length (a ++ b) = (String.length a + String.length b)%nat.
Proof. induction a as [| x a IH]; cbn; [reflexivity | rewrite IH; reflexivity]. Qed.

Lemma all_chars_append (P : ascii -> bool) (a b : string) :
  all_chars P (a ++ b) = (all_chars P a && all_chars P b)%bool.
Proof.
  induction a as [| x a IH]; cbn; [reflexivity |].
  rewrite IH. apply andb_assoc.
Qed.

Lemma all_chars_weaken (P Q : ascii -> bool) (s : string) :
  (forall c, P c = true -> Q c = true) -> all_chars P s = true -> all_chars Q s = true.
Proof.
  intros HPQ. induction s as [| c s IH]; cbn; [reflexivity |].
  intros E. apply andb_true_iff in E as [Hc Hs].
  rewrite (HPQ c Hc), (IH Hs). reflexivity.
Qed.

Lemma take_append (a b : string) : take (String.length a) (a ++ b) = a.
Proof. induction a as [| x a IH]; cbn; [destruct b | rewrite IH]; reflexivity. Qed.

Lemma drop_append (a b : string) : drop (String.length a) (a ++ b) = b.
Proof. induction a as [| x a IH]; cbn; [destruct b | rewrite IH]; reflexivity. Qed.

Lemma prefix_append (a b : string) : String.prefix a (a ++ b) = true.
Proof.
  induction a as [| x a IH]; cbn; [destruct b; reflexivity |].
  destruct (ascii_dec x x) as [_ | NE]; [exact IH | contradiction].
Qed.

Lemma prefix_cons (c d : ascii) (w s : string) :
  String.prefix (String c w) (String d s) = (Ascii.eqb c d && String.prefix w s)%bool.
Proof.
  change (String.prefix (String c w) (String d s))
    with (if ascii_dec c d then String.prefix w s else false).
  destruct (ascii_dec c d) as [-> | NE].
  - rewrite Ascii.eqb_refl. reflexivity.
  - apply Ascii.eqb_neq in NE. rewrite NE. reflexivity.
Qed.

Lemma prefix_nil (s : string) : String.prefix "" s = true.
Proof. destruct s; reflexivity. Qed.

(** *** Splitting at commas *)

Lemma split_not_nil (sep : ascii) (s : string) : split sep s <> [].
Proof.
  destruct s as [| c s]; cbn; [discriminate |].
  destruct (split sep s); [discriminate |].
  destruct (Ascii.eqb c sep); discriminate.
Qed.

Lemma split_plain (s : string) : all_chars not_comma s = true -> split comma s = [s].
Proof.
  induction s as [| c s IH]; cbn; [reflexivity |].
  intros E. apply andb_true_iff in E as [Hc Hs].
  rewrite (IH Hs). unfold not_comma in Hc. apply negb_true_iff in Hc.
  rewrite Hc. reflexivity.
Qed.

Lemma split_field (f rest : string) :
  all_chars not_comma f = true ->
  split comma (f ++ String comma rest) = f :: split comma rest.
Proof.
  induction f as [| c f IH]; intros E.
  - cbn. destruct (split comma rest) eqn:Es; [| reflexivity].
    exfalso. exact (split_not_nil _ _ Es).
  - cbn in E. apply andb_true_iff in E as [Hc Hs].
    cbn [append split]. rewrite (IH Hs).
    unfold not_comma in Hc. apply negb_true_iff in Hc. rewrite Hc. reflexivity.
Qed.

End StringLemmas.

(** *** Lines *)

Section LineLemmas.
Local Open Scope string_scope.

Lemma split_lines_not_nil (s : string) : split_lines s <> [].
Proof.
  destruct s as [| c s]; cbn; [discriminate |].
  destruct (split_lines s); [discriminate |].
  split_ifs; discriminate.
Qed.

Lemma lastChar_cons (c : ascii) (s : string) :
  s <> "" -> lastChar (String c s) = lastChar s.
Proof. destruct s; [contradiction | reflexivity]. Qed.

Lemma lastChar_append (a b : string) : b <> "" -> lastChar (a ++ b) = lastChar b.
Proof.
  intros Hb. induction a as [| c a IH]; [reflexivity |].
  cbn [append]. rewrite lastChar_cons; [exact IH |].
  destruct a; cbn; [exact Hb | discriminate].
Qed.

Lemma split_lines_line (l rest : string) :
  line_ok l -> split_lines (l ++ String LF rest) = l :: split_lines rest.
Proof.
  intros [Hlf Hcr]. induction l as [| c l IH].
  - cbn. destruct (split_lines rest) eqn:E; [| reflexivity].
    exfalso. exact (split_lines_not_nil _ E).
  - cbn in Hlf. apply andb_true_iff in Hlf as [Hc Hl].
    unfold not_LF in Hc. apply negb_true_iff in Hc.
    cbn [append split_lines]. rewrite IH; [| exact Hl |].
    + rewrite Hc.
      destruct (Ascii.eqb c CR && startsWith (l ++ String LF rest) (String LF ""))%bool
        eqn:E; [| reflexivity].
      exfalso. apply andb_true_iff in E as [Ecr Est].
      apply Ascii.eqb_eq in Ecr. subst c.
      destruct l as [| c' l].
      * apply Hcr. reflexivity.
      * unfold startsWith in Est. cbn [append] in Est. rewrite prefix_cons in Est.
        apply andb_true_iff in Est as [Est _]. apply Ascii.eqb_eq in Est. subst c'.
        discriminate Hl.
    + destruct l as [| c' l]; [cbn; discriminate |].
      rewrite lastChar_cons in Hcr; [exact Hcr | discriminate].
Qed.

Lemma split_lines_lines (L : list string) :
  Forall line_ok L -> split_lines (lines L) = (L ++ [""])%list.
Proof.
  induction 1 as [| l L Hl _ IH]; [reflexivity |].
  cbn [lines fold_right]. fold (lines L).
  rewrite split_lines_line by exact Hl. rewrite IH. reflexivity.
Qed.

(** *** White space at the ends *)

Lemma find_none_intro {A : Type} (f : A -> bool) (l : list A) :
  (forall x, In x l -> f x = false) -> find f l = None.
Proof.
  induction l as [| x l IH]; intros Hf; cbn; [reflexivity |].
  rewrite (Hf x (or_introl eq_refl)). apply IH. intros y Hy. apply Hf. right. exact Hy.
Qed.

Lemma trim_id (s : string) :
  leadingWhiteSpace s = None -> trailingWhiteSpace s = None -> trim s = s.
Proof.
  intros Hl Ht. unfold trim, trimStart, trimEnd.
  assert (E : trimStart_loop (String.length s) s = s).
  { destruct (String.length s); cbn [trimStart_loop]; [reflexivity |].
    rewrite Hl. reflexivity. }
  rewrite E. destruct (String.length s); cbn [trimEnd_loop]; [reflexivity |].
  rewrite Ht. reflexivity.
Qed.

Lemma leading_none_first_char (c : ascii) (s : string) :
  is_ws_lead c = false -> leadingWhiteSpace (String c s) = None.
Proof.
  unfold is_ws_lead, leadingWhiteSpace. generalize whiteSpace as ws.
  induction ws as [| w ws IH]; cbn [existsb find]; [reflexivity |].
  intros E. apply orb_false_iff in E as [Ew Ews].
  rewrite (IH Ews). destruct w as [| c' w]; [discriminate |].
  unfold startsWith. rewrite prefix_cons, Ew. reflexivity.
Qed.

Lemma prefix_before_comma (w a rest : string) :
  all_chars not_comma w = true ->
  String.prefix w (a ++ String comma rest) = true -> String.prefix w a = true.
Proof.
  revert a. induction w as [| x w IH]; intros a Hw Hp.
  - destruct a; reflexivity.
  - cbn in Hw. apply andb_true_iff in Hw as [Hx Hw].
    destruct a as [| y a]; cbn [append] in Hp; rewrite prefix_cons in *.
    + apply andb_true_iff in Hp as [Hp _]. apply Ascii.eqb_eq in Hp. subst x.
      discriminate Hx.
    + apply andb_true_iff in Hp as [Hxy Hp]. rewrite Hxy. apply IH; assumption.
Qed.

Lemma whiteSpace_has_no_comma : forall w, In w whiteSpace -> all_chars not_comma w = true.
Proof.
  apply forallb_forall. vm_compute. reflexivity.
Qed.

Lemma leading_none_field (a rest : string) :
  leadingWhiteSpace a = None ->
  leadingWhiteSpace (a ++ String comma rest) = None.
Proof.
  unfold leadingWhiteSpace. intros Ha.
  apply find_none_intro. intros w Hw.
  pose proof (find_none _ _ Ha w Hw) as Hpa.
  unfold startsWith in *.
  destruct (String.prefix w (a ++ String comma rest)) eqn:E; [| reflexivity].
  rewrite (prefix_before_comma w a rest (whiteSpace_has_no_comma w Hw) E) in Hpa.
  discriminate.
Qed.

Lemma drop_nil (k : nat) : drop k "" = "".
Proof. destruct k; reflexivity. Qed.

Lemma lastChar_drop (k : nat) (s w : string) :
  drop k s = w -> w <> "" -> lastChar s = lastChar w.
Proof.
  revert s. induction k as [| k IH]; intros s E Hw.
  - destruct s; cbn in E; subst; reflexivity.
  - destruct s as [| c s]; cbn in E; [subst; reflexivity |].
    rewrite lastChar_cons; [apply IH; assumption |].
    intros ->. rewrite drop_nil in E. subst w. contradiction.
Qed.

Lemma trailing_none_last_char (s : string) (c : ascii) :
  lastChar s = Some c -> is_ws_tail c = false -> trailingWhiteSpace s = None.
Proof.
  unfold is_ws_tail, trailingWhiteSpace. intros Hs. generalize whiteSpace as ws.
  induction ws as [| w ws IH]; cbn [existsb find]; [reflexivity |].
  intros E. apply orb_false_iff in E as [Ew Ews].
  rewrite (IH Ews).
  destruct (endsWith s w) eqn:Ee; [| reflexivity].
  exfalso. unfold endsWith in Ee. apply andb_true_iff in Ee as [_ Ee].
  apply String.eqb_eq in Ee.
  destruct w as [| c' w]; [discriminate Ew |].
  apply lastChar_drop in Ee; [| discriminate].
  rewrite <- Ee, Hs in Ew. rewrite Ascii.eqb_refl in Ew. discriminate.
Qed.

End LineLemmas.

(** *** Printed numbers *)

Section NumericText.
Local Open Scope string_scope.

Lemma numeric_char_forall (P : ascii -> bool) :
  forallb P (list_ascii_of_string "0123456789+-.eInfinityNaN") = true ->
  forall c, numeric_char c = true -> P c = true.
Proof.
  intros HP c Hc. unfold numeric_char in Hc.
  apply existsb_exists in Hc as (x & Hx & E).
  apply Ascii.eqb_eq in E. subst x.
  exact (proj1 (forallb_forall _ _) HP c Hx).
Qed.

Lemma numeric_text_all (P : ascii -> bool) (s : string) :
  forallb P (list_ascii_of_string "0123456789+-.eInfinityNaN") = true ->
  numeric_text s = true -> all_chars P s = true.
Proof.
  intros HP Hs. unfold numeric_text in Hs. apply andb_true_iff in Hs as [_ Hs].
  exact (all_chars_weaken _ _ _ (numeric_char_forall P HP) Hs).
Qed.

Lemma numeric_text_no_comma (s : string) :
  numeric_text s = true -> all_chars not_comma s = true.
Proof. apply numeric_text_all. vm_compute. reflexivity. Qed.

Lemma numeric_text_no_LF (s : string) :
  numeric_text s = true -> all_chars not_LF s = true.
Proof. apply numeric_text_all. vm_compute. reflexivity. Qed.

Lemma numeric_text_first (s : string) :
  numeric_text s = true -> exists c s', s = String c s' /\ numeric_char c = true.
Proof.
  unfold numeric_text. destruct s as [| c s']; [discriminate |].
  cbn. intros E. apply andb_true_iff in E as [Hc _]. eauto.
Qed.

Lemma all_chars_lastChar (P : ascii -> bool) (s : string) (c : ascii) :
  all_chars P s = true -> lastChar s = Some c -> P c = true.
Proof.
  induction s as [| x s IH]; [discriminate |].
  cbn [all_chars]. intros E. apply andb_true_iff in E as [Hx Hs].
  destruct s as [| y s].
  - cbn. intros [= <-]. exact Hx.
  - rewrite lastChar_cons by discriminate. apply IH. exact Hs.
Qed.

Lemma lastChar_some (s : string) : s <> "" -> exists c, lastChar s = Some c.
Proof.
  induction s as [| x s IH]; [contradiction |]. intros _.
  destruct s as [| y s]; [exists x; reflexivity |].
  rewrite lastChar_cons by discriminate. apply IH. discriminate.
Qed.

Lemma numeric_text_last (s : string) :
  numeric_text s = true -> exists c, lastChar s = Some c /\ numeric_char c = true.
Proof.
  intros Hs. pose proof Hs as Hs'. unfold numeric_text in Hs.
  apply andb_true_iff in Hs as [Hne Hall].
  apply negb_true_iff, String.eqb_neq in Hne.
  destruct (lastChar_some s Hne) as [c Hc]. exists c. split; [exact Hc |].
  exact (all_chars_lastChar _ _ _ Hall Hc).
Qed.

Lemma numeric_char_not_ws_lead (c : ascii) : numeric_char c = true -> is_ws_lead c = false.
Proof.
  intros Hc. apply negb_true_iff. revert c Hc.
  apply numeric_char_forall. vm_compute. reflexivity.
Qed.

Lemma numeric_char_not_ws_tail (c : ascii) : numeric_char c = true -> is_ws_tail c = false.
Proof.
  intros Hc. apply negb_true_iff. revert c Hc.
  apply numeric_char_forall. vm_compute. reflexivity.
Qed.

Lemma numeric_char_not_CR (c : ascii) : numeric_char c = true -> c <> CR.
Proof.
  intros Hc E. subst c. vm_compute in Hc. discriminate.
Qed.

(** A line that begins with a printed number has no white space in front. *)
Lemma leading_none_numeric (a rest : string) :
  numeric_text a = true -> leadingWhiteSpace (a ++ rest) = None.
Proof.
  intros Ha. destruct (numeric_text_first a Ha) as (c & s' & -> & Hc).
  cbn [append]. apply leading_none_first_char. apply numeric_char_not_ws_lead. exact Hc.
Qed.

(** A line that ends with a printed number has no white space behind. *)
Lemma trailing_none_numeric (a b : string) :
  numeric_text b = true -> trailingWhiteSpace (a ++ b) = None.
Proof.
  intros Hb. destruct (numeric_text_last b Hb) as (c & Hc & Hn).
  apply trailing_none_last_char with (c := c).
  - rewrite lastChar_append; [exact Hc |]. intros ->. discriminate.
  - apply numeric_char_not_ws_tail. exact Hn.
Qed.

Lemma trailing_none_char (a : string) (c : ascii) :
  is_ws_tail c = false -> trailingWhiteSpace (a ++ String c "") = None.
Proof.
  intros Hc. apply trailing_none_last_char with (c := c); [| exact Hc].
  rewrite lastChar_append; [reflexivity | discriminate].
Qed.

(** *** Telling the lines of the file apart *)

Lemma has_comma_append (a rest : string) :
  all_chars not_comma (a ++ String comma rest) = false.
Proof.
  rewrite all_chars_append. cbn. apply andb_false_r.
Qed.

Lemma not_equal_by_comma (s m : string) :
  all_chars not_comma s = false -> all_chars not_comma m = true ->
  String.eqb s m = false.
Proof.
  intros Hs Hm. apply String.eqb_neq. intros ->. congruence.
Qed.

Lemma not_equal_by_first_char (a rest m : string) (c : ascii) :
  numeric_text a = true -> numeric_char c = false ->
  String.eqb (a ++ rest) (String c m) = false.
Proof.
  intros Ha Hc. destruct (numeric_text_first a Ha) as (x & s' & -> & Hx).
  apply String.eqb_neq. cbn [append]. intros [= -> _]. congruence.
Qed.

Lemma numeric_text_not_empty (a rest : string) :
  numeric_text a = true -> String.eqb (a ++ rest) "" = false.
Proof.
  intros Ha. destruct (numeric_text_first a Ha) as (x & s' & -> & _). reflexivity.
Qed.

Lemma numeric_text_is_not (s m : string) (c : ascii) :
  numeric_text s = true -> numeric_char c = false -> String.eqb s (String c m) = false.
Proof.
  intros Hs Hc. rewrite <- (append_nil_r s). apply not_equal_by_first_char; assumption.
Qed.

Lemma numeric_text_is_not_empty (s : string) :
  numeric_text s = true -> String.eqb s "" = false.
Proof.
  intros Hs. rewrite <- (append_nil_r s). apply numeric_text_not_empty. exact Hs.
Qed.

Lemma starts_with_id_comma (a rest : string) :
  all_chars not_comma a = true ->
  startsWith (a ++ String comma rest) "id," = true -> a = "id".
Proof.
  intros Ha Hp. unfold startsWith in Hp.
  destruct a as [| x [| y [| z a]]]; cbn [append] in Hp;
    repeat (rewrite prefix_cons in Hp;
            let E := fresh "E" in
            apply andb_true_iff in Hp as [E Hp]; apply Ascii.eqb_eq in E).
  - discriminate.
  - discriminate.
  - subst. reflexivity.
  - subst z. cbn in Ha. rewrite !andb_false_r in Ha. discriminate.
Qed.

(** *** The fourth comma *)

Lemma fourthCommaIndex_field (f rest : string) (k : nat) (i : Z) :
  all_chars not_comma f = true ->
  fourthCommaIndex (f ++ String comma rest) k i
  = if (S k =? 4)%nat then (i + Z.of_nat (String.length f))%Z
    else fourthCommaIndex rest (S k) (i + Z.of_nat (String.length f) + 1)%Z.
Proof.
  revert i. induction f as [| c f IH]; intros i Hf.
  - cbn [append fourthCommaIndex String.length]. unfold comma at 1.
    rewrite Ascii.eqb_refl. rewrite Z.add_0_r. reflexivity.
  - cbn [all_chars] in Hf. apply andb_true_iff in Hf as [Hc Hf].
    unfold not_comma in Hc. apply negb_true_iff in Hc.
    cbn [append fourthCommaIndex]. rewrite Hc, (IH _ Hf).
    cbn [String.length]. rewrite Nat2Z.inj_succ.
    destruct (S k =? 4)%nat; [lia | f_equal; lia].
Qed.

(** *** Quotes *)

Lemma undouble_double (s : string) : undouble_quotes (double_quotes s) = s.
Proof.
  induction s as [| c s IH]; [reflexivity |].
  cbn [double_quotes]. destruct (Ascii.eqb c dquote) eqn:E.
  - apply Ascii.eqb_eq in E. subst c.
    cbn [undouble_quotes]. rewrite Ascii.eqb_refl. cbn [andb]. rewrite IH. reflexivity.
  - cbn [undouble_quotes]. rewrite E. cbn [andb].
    destruct (double_quotes s) eqn:Ed.
    + rewrite <- IH. reflexivity.
    + rewrite IH. reflexivity.
Qed.

Lemma quoted_startsWith (e : string) :
  startsWith (String dquote (e ++ String dquote "")) (String dquote "") = true.
Proof.
  unfold startsWith. rewrite prefix_cons, Ascii.eqb_refl, prefix_nil. reflexivity.
Qed.

Lemma quoted_endsWith (e : string) :
  endsWith (String dquote (e ++ String dquote "")) (String dquote "") = true.
Proof.
  unfold endsWith.
  change (String dquote (e ++ String dquote "")) with (String dquote e ++ String dquote "").
  rewrite length_append. cbn [String.length].
  replace (S (String.length e) + 1 - 1)%nat with (String.length (String dquote e))
    by (cbn [String.length]; lia).
  rewrite drop_append. rewrite String.eqb_refl.
  apply andb_true_iff. split; [| reflexivity].
  apply Nat.leb_le. cbn [String.length]. lia.
Qed.

Lemma quoted_slice (e : string) :
  slice_1_m1 (String dquote (e ++ String dquote "")) = e.
Proof.
  unfold slice_1_m1. cbn [String.length drop]. rewrite length_append.
  cbn [String.length].
  replace (S (String.length e + 1) - 2)%nat with (String.length e) by lia.
  apply take_append.
Qed.

Lemma append_not_nil_r (a b : string) : b <> "" -> a ++ b <> "".
Proof. destruct a; [trivial | discriminate]. Qed.

End NumericText.

(** The tail of a row of the export is not empty; its last character is
    the last character of its last piece. *)
Ltac row_not_nil :=
  first [ discriminate
        | cbn [append]; discriminate
        | apply append_not_nil_r; row_not_nil ].

Ltac last_of_row := repeat (rewrite lastChar_append; [| row_not_nil]).

(** ** The export, line by line *)

Section ExportLines.
Context {N : Type} `{Number N} `{NumberText N}.
Local Open Scope string_scope.

Lemma lines_app (a b : list string) : lines (a ++ b)%list = lines a ++ lines b.
Proof.
  induction a as [| l a IH]; [reflexivity |].
  cbn [lines fold_right List.app]. fold (lines (a ++ b)%list). fold (lines a).
  rewrite IH. cbn [append]. rewrite append_assoc. reflexivity.
Qed.

Lemma lines_cons (l : string) (L : list string) : lines (l :: L) = l ++ nl ++ lines L.
Proof. reflexivity. Qed.

Lemma append_nil_l (s : string) : "" ++ s = s.
Proof. reflexivity. Qed.

Lemma fold_left_rows {A : Type} (f : A -> string) (l : list A) (content : string) :
  fold_left (fun content x => content ++ f x) l content
  = content ++ fold_right (fun x rest => f x ++ rest) "" l.
Proof.
  revert content. induction l as [| x l IH]; intros content; cbn [fold_left fold_right].
  - rewrite append_nil_r. reflexivity.
  - rewrite IH, append_assoc. reflexivity.
Qed.

Lemma rows_as_lines {A : Type} (line row : A -> string) (l : list A) :
  (forall x, line x = row x ++ nl) ->
  fold_right (fun x rest => line x ++ rest) "" l = lines (map row l).
Proof.
  intros Hl. induction l as [| x l IH]; [reflexivity |].
  cbn [fold_right map lines]. fold (lines (map row l)).
  rewrite IH, Hl, append_assoc. reflexivity.
Qed.

Lemma holdingLine_row (h : CalculatedHolding.t N) : holdingLine h = holdingRow h ++ nl.
Proof.
  unfold holdingLine, holdingRow. rewrite !append_assoc. reflexivity.
Qed.

Lemma dividendLine_row (r : DividendRecord.t N) : dividendLine r = dividendRow r ++ nl.
Proof.
  unfold dividendLine, dividendRow, note_text. rewrite !append_assoc. reflexivity.
Qed.

Lemma summaryLine_row (s : PortfolioSummary.t N) :
  summaryLine s = summaryRow s ++ nl ++ nl.
Proof.
  unfold summaryLine, summaryRow. rewrite !append_assoc. reflexivity.
Qed.

Lemma mapi_from_ext {A B : Type} (f g : A -> Z -> B) (l : list A) (i : Z) :
  (forall x j, f x j = g x j) -> mapi_from f l i = mapi_from g l i.
Proof.
  intros E. revert i. induction l as [| x l IH]; intros i; [reflexivity |].
  cbn. rewrite E, IH. reflexivity.
Qed.

Lemma mapi_from_map {A B C : Type} (f : A -> Z -> B) (g : B -> C) (l : list A) (i : Z) :
  map g (mapi_from f l i) = mapi_from (fun x j => g (f x j)) l i.
Proof.
  revert i. induction l as [| x l IH]; intros i; [reflexivity |].
  cbn. rewrite IH. reflexivity.
Qed.

Lemma yearlyPerformanceLine_row (ym : list (N * N)) (sy : list N) (year : N) (index : Z) :
  yearlyPerformanceLine ym sy year index = yearlyRow ym sy year index ++ nl.
Proof.
  unfold yearlyPerformanceLine, yearlyRow.
  destruct (yearlyGrowthAndDiff ym sy year index) as [growthStr diffStr].
  cbn [fst snd]. rewrite !append_assoc. reflexivity.
Qed.

Lemma yearly_lines (ym : list (N * N)) (sy l : list N) (i : Z) :
  fold_right (fun line rest => line ++ rest) ""
    (mapi_from (yearlyPerformanceLine ym sy) l i)
  = lines (mapi_from (yearlyRow ym sy) l i).
Proof.
  revert i. induction l as [| y l IH]; intros i; [reflexivity |].
  cbn [mapi_from fold_right lines]. fold (lines (mapi_from (yearlyRow ym sy) l (i + 1))).
  rewrite IH, yearlyPerformanceLine_row, append_assoc. reflexivity.
Qed.

(** The exported text is the byte order mark and then the lines of
    [exportLines], each closed by a line feed. *)
Lemma export_as_lines (state : AppState.t N) :
  handleExportCSV state = BOM ++ lines (exportLines state).
Proof.
  unfold handleExportCSV, exportLines.
  rewrite !fold_left_rows.
  rewrite (rows_as_lines holdingLine holdingRow) by apply holdingLine_row.
  rewrite (rows_as_lines dividendLine dividendRow) by apply dividendLine_row.
  unfold mapi. rewrite yearly_lines.
  rewrite summaryLine_row.
  rewrite !lines_app, !lines_cons.
  change (lines []) with "".
  rewrite !append_assoc, !append_nil_l.
  reflexivity.
Qed.

End ExportLines.

(** ** The import, line by line *)

Section ImportLines.
Context {N : Type} `{Number N} `{NumberText N}.
Hypothesis toString_numeric : forall x : N, numeric_text (toString x) = true.
Hypothesis toFixed_numeric : forall (x : N) (d : nat), numeric_text (toFixed x d) = true.
Local Open Scope string_scope.

Lemma readAsText_BOM (s : string) : readAsText (BOM ++ s) = s.
Proof.
  unfold readAsText, startsWith. rewrite prefix_append, drop_append. reflexivity.
Qed.

Lemma importLine_blank (p : Parsed.t N) : importLine p "" = p.
Proof. reflexivity. Qed.

Lemma importLine_SUMMARY (p : Parsed.t N) :
  importLine p "[SUMMARY]" = setSection p "SUMMARY".
Proof.
  unfold importLine.
  replace (trim "[SUMMARY]") with "[SUMMARY]" by (vm_compute; reflexivity).
  reflexivity.
Qed.

Lemma importLine_CASH (p : Parsed.t N) : importLine p "[CASH]" = setSection p "CASH".
Proof.
  unfold importLine.
  replace (trim "[CASH]") with "[CASH]" by (vm_compute; reflexivity).
  reflexivity.
Qed.

Lemma importLine_HOLDINGS (p : Parsed.t N) :
  importLine p "[HOLDINGS]" = setSection p "HOLDINGS".
Proof.
  unfold importLine.
  replace (trim "[HOLDINGS]") with "[HOLDINGS]" by (vm_compute; reflexivity).
  reflexivity.
Qed.

Lemma importLine_DIVIDENDS (p : Parsed.t N) :
  importLine p "[DIVIDENDS]" = setSection p "DIVIDENDS".
Proof.
  unfold importLine.
  replace (trim "[DIVIDENDS]") with "[DIVIDENDS]" by (vm_compute; reflexivity).
  reflexivity.
Qed.

Lemma importLine_YEARLY_PERFORMANCE (p : Parsed.t N) :
  importLine p "[YEARLY_PERFORMANCE]" = setSection p "YEARLY_PERFORMANCE".
Proof.
  unfold importLine.
  replace (trim "[YEARLY_PERFORMANCE]") with "[YEARLY_PERFORMANCE]"
    by (vm_compute; reflexivity).
  reflexivity.
Qed.

(** A line with a comma is neither blank nor a section mark. *)
Lemma line_with_comma (s : string) :
  all_chars not_comma s = false ->
  String.eqb s "" = false /\ String.eqb s "[SUMMARY]" = false
  /\ String.eqb s "[CASH]" = false /\ String.eqb s "[HOLDINGS]" = false
  /\ String.eqb s "[DIVIDENDS]" = false /\ String.eqb s "[YEARLY_PERFORMANCE]" = false.
Proof.
  intros Hs. repeat split; apply not_equal_by_comma; try exact Hs; reflexivity.
Qed.

(** Within the summary and the yearly performance every line with a comma
    is passed over. *)
Lemma importLine_ignored (p : Parsed.t N) (line : string) :
  Parsed.section p = "SUMMARY" \/ Parsed.section p = "YEARLY_PERFORMANCE" ->
  trim line = line -> all_chars not_comma line = false ->
  importLine p line = p.
Proof.
  intros Hsec Ht Hc. unfold importLine. rewrite Ht.
  destruct (line_with_comma line Hc) as (E0 & E1 & E2 & E3 & E4 & E5).
  rewrite E0, E1, E2, E3, E4, E5.
  destruct Hsec as [-> | ->]; reflexivity.
Qed.

Lemma fold_importLine_ignored (ls : list string) (p : Parsed.t N) :
  Parsed.section p = "SUMMARY" \/ Parsed.section p = "YEARLY_PERFORMANCE" ->
  Forall (fun line => trim line = line /\ all_chars not_comma line = false) ls ->
  fold_left importLine ls p = p.
Proof.
  intros Hsec Hls. induction Hls as [| line ls [Ht Hc] _ IH]; [reflexivity |].
  cbn [fold_left]. rewrite importLine_ignored by assumption. exact IH.
Qed.

(** The line of the cash section. *)
Lemma importLine_cash_value (p : Parsed.t N) (cash : N) :
  Parsed.section p = "CASH" ->
  parseFloat (toString cash) = cash -> isNaN cash = false ->
  importLine p (toString cash)
  = Parsed.mk "CASH" (Some cash) (Parsed.tempHoldings p) (Parsed.tempDividends p).
Proof.
  intros Hsec Hparse Hnan.
  pose proof (toString_numeric cash) as Hnum.
  assert (Ht : trim (toString cash) = toString cash).
  { apply trim_id.
    - rewrite <- (append_nil_r (toString cash)). apply leading_none_numeric. exact Hnum.
    - change (toString cash) with ("" ++ toString cash).
      apply trailing_none_numeric. exact Hnum. }
  unfold importLine. rewrite Ht.
  rewrite (numeric_text_is_not_empty _ Hnum).
  rewrite !(numeric_text_is_not _ _ _ Hnum) by reflexivity.
  rewrite Hsec, Hparse, Hnan. reflexivity.
Qed.

Lemma plain_no_comma (s : string) : plain s = true -> all_chars not_comma s = true.
Proof.
  apply all_chars_weaken. intros c E. apply andb_true_iff in E. tauto.
Qed.

Lemma plain_no_LF (s : string) : plain s = true -> all_chars not_LF s = true.
Proof.
  apply all_chars_weaken. intros c E. apply andb_true_iff in E. tauto.
Qed.


(** *** The holdings section *)

Lemma importLine_holdings_header (p : Parsed.t N) :
  Parsed.section p = "HOLDINGS" ->
  importLine p
    "id,name,code,type,quantity,avgPrice,currentPrice,cost,presentValue,profit,roi"
  = p.
Proof.
  intros Hsec. unfold importLine.
  replace
    (trim "id,name,code,type,quantity,avgPrice,currentPrice,cost,presentValue,profit,roi")
    with "id,name,code,type,quantity,avgPrice,currentPrice,cost,presentValue,profit,roi"
    by (vm_compute; reflexivity).
  rewrite Hsec. reflexivity.
Qed.

Lemma holdingRow_trim (h : CalculatedHolding.t N) :
  leadingWhiteSpace (Holding.id (CalculatedHolding.holding h)) = None ->
  trim (holdingRow h) = holdingRow h.
Proof.
  intros Hid. apply trim_id.
  - unfold holdingRow. apply (leading_none_field _ _ Hid).
  - apply trailing_none_last_char with (c := "%"%char); [| vm_compute; reflexivity].
    unfold holdingRow. last_of_row. reflexivity.
Qed.

Lemma holdingRow_split (h : CalculatedHolding.t N) :
  let r := CalculatedHolding.holding h in
  plain (Holding.id r) = true -> plain (Holding.name r) = true ->
  plain (Holding.code r) = true -> plain (Holding.type r) = true ->
  split comma (holdingRow h)
  = [ Holding.id r; Holding.name r; Holding.code r; Holding.type r;
      toString (Holding.quantity r); toString (Holding.avgPrice r);
      toString (Holding.currentPrice r); toString (CalculatedHolding.cost h);
      toString (CalculatedHolding.presentValue h); toString (CalculatedHolding.profit h);
      toFixed (CalculatedHolding.roi h) 2 ++ "%" ].
Proof.
  intros r H1 H2 H3 H4. unfold holdingRow. fold r. cbn [append].
  repeat (rewrite (split_field _ _);
          [| first [ apply plain_no_comma; assumption
                   | apply numeric_text_no_comma; apply toString_numeric ] ]).
  rewrite split_plain; [reflexivity |].
  rewrite all_chars_append, (numeric_text_no_comma _ (toFixed_numeric _ _)). reflexivity.
Qed.

Lemma holding_eta (r : Holding.t N) :
  Holding.mk (Holding.id r) (Holding.name r) (Holding.code r) (Holding.type r)
    (Holding.quantity r) (Holding.avgPrice r) (Holding.currentPrice r) = r.
Proof. destruct r; reflexivity. Qed.

Lemma importLine_holdingRow (p : Parsed.t N) (h : CalculatedHolding.t N) :
  Parsed.section p = "HOLDINGS" ->
  holding_exportable (CalculatedHolding.holding h) ->
  importLine p (holdingRow h)
  = Parsed.mk "HOLDINGS" (Parsed.tempCash p)
      (Parsed.tempHoldings p ++ [CalculatedHolding.holding h])%list
      (Parsed.tempDividends p).
Proof.
  intros Hsec (H1 & H2 & H3 & H4 & Hlead & Hid & Hq & Ha & Hc).
  assert (Hcomma : all_chars not_comma (holdingRow h) = false)
    by (unfold holdingRow; apply has_comma_append).
  assert (Hstart : startsWith (holdingRow h) "id," = false).
  { destruct (startsWith (holdingRow h) "id,") eqn:E; [| reflexivity].
    exfalso. apply Hid. unfold holdingRow in E.
    exact (starts_with_id_comma _ _ (plain_no_comma _ H1) E). }
  unfold importLine. rewrite (holdingRow_trim h Hlead).
  destruct (line_with_comma _ Hcomma) as (E0 & E1 & E2 & E3 & E4 & E5).
  rewrite E0, E1, E2, E3, E4, E5, Hsec, Hstart.
  rewrite (holdingRow_split h H1 H2 H3 H4).
  cbn [String.eqb Ascii.eqb Bool.eqb orb List.length Nat.leb part nth].
  rewrite Hq, Ha, Hc, holding_eta. reflexivity.
Qed.

Lemma fold_importLine_holdingRows (hs : list (CalculatedHolding.t N)) (p : Parsed.t N) :
  Parsed.section p = "HOLDINGS" ->
  Forall (fun h => holding_exportable (CalculatedHolding.holding h)) hs ->
  fold_left importLine (map holdingRow hs) p
  = Parsed.mk "HOLDINGS" (Parsed.tempCash p)
      (Parsed.tempHoldings p ++ map CalculatedHolding.holding hs)%list
      (Parsed.tempDividends p).
Proof.
  intros Hsec Hhs. revert p Hsec.
  induction Hhs as [| h hs Hh _ IH]; intros p Hsec.
  - cbn. rewrite app_nil_r, <- Hsec. destruct p; reflexivity.
  - cbn [map fold_left]. rewrite (importLine_holdingRow p h Hsec Hh).
    rewrite IH by reflexivity. cbn. rewrite <- app_assoc. reflexivity.
Qed.

(** *** The dividends section *)

Lemma importLine_dividends_header (p : Parsed.t N) :
  Parsed.section p = "DIVIDENDS" ->
  importLine p "id,date,ticker,amount,note" = p.
Proof.
  intros Hsec. unfold importLine.
  replace (trim "id,date,ticker,amount,note") with "id,date,ticker,amount,note"
    by (vm_compute; reflexivity).
  rewrite Hsec. reflexivity.
Qed.

Lemma dividendRow_columns (r : DividendRecord.t N) :
  dividendRow r
  = dividendColumns r
    ++ String comma (String dquote (double_quotes (note_text r) ++ String dquote "")).
Proof.
  unfold dividendRow, dividendColumns. rewrite !append_assoc. reflexivity.
Qed.

Lemma dividendRow_trim (r : DividendRecord.t N) :
  leadingWhiteSpace (DividendRecord.id r) = None ->
  trim (dividendRow r) = dividendRow r.
Proof.
  intros Hid. apply trim_id.
  - unfold dividendRow. apply (leading_none_field _ _ Hid).
  - apply trailing_none_last_char with (c := dquote); [| vm_compute; reflexivity].
    unfold dividendRow. last_of_row.
    change (String dquote (double_quotes (note_text r) ++ String dquote ""))
      with (String dquote (double_quotes (note_text r)) ++ String dquote "").
    rewrite lastChar_append by discriminate. reflexivity.
Qed.

Lemma dividendRow_fourth_comma (r : DividendRecord.t N) :
  plain (DividendRecord.id r) = true -> plain (DividendRecord.date r) = true ->
  plain (DividendRecord.ticker r) = true ->
  fourthCommaIndex (dividendRow r) 0 0 = Z.of_nat (String.length (dividendColumns r)).
Proof.
  intros H1 H2 H3. unfold dividendRow, dividendColumns. cbn [append].
  repeat (rewrite (fourthCommaIndex_field _ _);
          [| first [ apply plain_no_comma; assumption
                   | apply numeric_text_no_comma; apply toString_numeric ] ]).
  cbn [Nat.eqb].
  repeat (rewrite length_append; cbn [String.length]). lia.
Qed.

Lemma dividendColumns_split (r : DividendRecord.t N) :
  plain (DividendRecord.id r) = true -> plain (DividendRecord.date r) = true ->
  plain (DividendRecord.ticker r) = true ->
  split comma (dividendColumns r)
  = [ DividendRecord.id r; DividendRecord.date r; DividendRecord.ticker r;
      toString (DividendRecord.amount r) ].
Proof.
  intros H1 H2 H3. unfold dividendColumns. cbn [append].
  repeat (rewrite (split_field _ _); [| apply plain_no_comma; assumption]).
  rewrite split_plain; [reflexivity |].
  apply numeric_text_no_comma, toString_numeric.
Qed.

Lemma importLine_dividendRow (p : Parsed.t N) (r : DividendRecord.t N) :
  Parsed.section p = "DIVIDENDS" ->
  dividend_exportable r ->
  importLine p (dividendRow r)
  = Parsed.mk "DIVIDENDS" (Parsed.tempCash p) (Parsed.tempHoldings p)
      (Parsed.tempDividends p ++ [as_imported r])%list.
Proof.
  intros Hsec (H1 & H2 & H3 & Hlead & Hid & Ha & _).
  assert (Hcomma : all_chars not_comma (dividendRow r) = false)
    by (unfold dividendRow; apply has_comma_append).
  assert (Hstart : startsWith (dividendRow r) "id," = false).
  { destruct (startsWith (dividendRow r) "id,") eqn:E; [| reflexivity].
    exfalso. apply Hid. unfold dividendRow in E.
    exact (starts_with_id_comma _ _ (plain_no_comma _ H1) E). }
  unfold importLine. rewrite (dividendRow_trim r Hlead).
  destruct (line_with_comma _ Hcomma) as (E0 & E1 & E2 & E3 & E4 & E5).
  rewrite E0, E1, E2, E3, E4, E5, Hsec, Hstart.
  rewrite (dividendRow_fourth_comma r H1 H2 H3).
  cbn [String.eqb Ascii.eqb Bool.eqb orb].
  replace (negb (Z.of_nat (String.length (dividendColumns r)) =? -1)%Z) with true
    by (symmetry; apply negb_true_iff, Z.eqb_neq; lia).
  rewrite Nat2Z.id.
  replace (Z.to_nat (Z.of_nat (String.length (dividendColumns r)) + 1))
    with (String.length (dividendColumns r ++ String comma "")).
  2: { rewrite length_append. cbn [String.length]. lia. }
  assert (Htake : take (String.length (dividendColumns r)) (dividendRow r)
                  = dividendColumns r)
    by (rewrite dividendRow_columns; apply take_append).
  assert (Hdrop : drop (String.length (dividendColumns r ++ String comma ""))
                    (dividendRow r)
                  = String dquote (double_quotes (note_text r) ++ String dquote "")).
  { rewrite dividendRow_columns.
    change (String comma (String dquote (double_quotes (note_text r) ++ String dquote "")))
      with (String comma ""
            ++ String dquote (double_quotes (note_text r) ++ String dquote "")).
    rewrite <- append_assoc. apply drop_append. }
  rewrite Htake, Hdrop.
  rewrite quoted_startsWith, quoted_endsWith, quoted_slice, undouble_double.
  rewrite (dividendColumns_split r H1 H2 H3).
  cbn [andb List.length Nat.eqb part nth].
  rewrite Ha. reflexivity.
Qed.

Lemma fold_importLine_dividendRows (rs : list (DividendRecord.t N)) (p : Parsed.t N) :
  Parsed.section p = "DIVIDENDS" ->
  Forall dividend_exportable rs ->
  fold_left importLine (map dividendRow rs) p
  = Parsed.mk "DIVIDENDS" (Parsed.tempCash p) (Parsed.tempHoldings p)
      (Parsed.tempDividends p ++ map as_imported rs)%list.
Proof.
  intros Hsec Hrs. revert p Hsec.
  induction Hrs as [| r rs Hr _ IH]; intros p Hsec.
  - cbn. rewrite app_nil_r, <- Hsec. destruct p; reflexivity.
  - cbn [map fold_left]. rewrite (importLine_dividendRow p r Hsec Hr).
    rewrite IH by reflexivity. cbn. rewrite <- app_assoc. reflexivity.
Qed.

End ImportLines.

(** ** Sorting keeps the elements *)

Section SortLemmas.
Context {N : Type} `{Number N} {A : Type}.
Variable compareFn : A -> A -> N.

Lemma sort_insert_Forall (P : A -> Prop) (x : A) (l : list A) :
  P x -> Forall P l -> Forall P (sort_insert compareFn x l).
Proof.
  intros Hx Hl. induction Hl as [| y l Hy Hl IH]; cbn.
  - constructor; [exact Hx | constructor].
  - destruct (num_gt _ _); repeat constructor; assumption.
Qed.

Lemma Array_sort_Forall (P : A -> Prop) (l : list A) :
  Forall P l -> Forall P (Array_sort compareFn l).
Proof.
  induction 1 as [| x l Hx _ IH]; [constructor |].
  change (Array_sort compareFn (x :: l))
    with (sort_insert compareFn x (Array_sort compareFn l)).
  apply sort_insert_Forall; assumption.
Qed.

Lemma sort_insert_length (x : A) (l : list A) :
  List.length (sort_insert compareFn x l) = S (List.length l).
Proof.
  induction l as [| y l IH]; cbn; [reflexivity |].
  destruct (num_gt _ _); cbn; [rewrite IH |]; reflexivity.
Qed.

Lemma Array_sort_length (l : list A) :
  List.length (Array_sort compareFn l) = List.length l.
Proof.
  induction l as [| x l IH]; [reflexivity |].
  change (Array_sort compareFn (x :: l))
    with (sort_insert compareFn x (Array_sort compareFn l)).
  rewrite sort_insert_length, IH. reflexivity.
Qed.

End SortLemmas.

(** ** Export and import *)

Section RoundTrip.
Context {N : Type} `{Number N} `{NumberText N}.
Hypothesis toString_numeric : forall x : N, numeric_text (toString x) = true.
Hypothesis toFixed_numeric : forall (x : N) (d : nat), numeric_text (toFixed x d) = true.
Local Open Scope string_scope.

Ltac no_LF_row :=
  repeat (rewrite all_chars_append || cbn [all_chars append]);
  rewrite ?(numeric_text_no_LF _ (toString_numeric _)),
          ?(numeric_text_no_LF _ (toFixed_numeric _ _));
  repeat match goal with
    | Hp : plain ?s = true |- _ => rewrite (plain_no_LF s Hp); clear Hp
    end;
  try reflexivity.

Lemma line_ok_numeric (s : string) : numeric_text s = true -> line_ok s.
Proof.
  intros Hs. split; [apply numeric_text_no_LF; exact Hs |].
  destruct (numeric_text_last s Hs) as (c & Hc & Hn). rewrite Hc.
  intros [= ->]. exact (numeric_char_not_CR _ Hn eq_refl).
Qed.

Lemma summaryRow_edges (s : PortfolioSummary.t N) :
  trim (summaryRow s) = summaryRow s /\ all_chars not_comma (summaryRow s) = false
  /\ line_ok (summaryRow s).
Proof.
  assert (Hlast : lastChar (summaryRow s) = Some "%"%char).
  { unfold summaryRow. repeat (rewrite lastChar_append; [| row_not_nil]). reflexivity. }
  split; [| split; [| split]].
  - apply trim_id.
    + unfold summaryRow. apply leading_none_numeric, toString_numeric.
    + apply trailing_none_last_char with (c := "%"%char);
        [exact Hlast | vm_compute; reflexivity].
  - unfold summaryRow. apply has_comma_append.
  - unfold summaryRow. no_LF_row.
  - rewrite Hlast. discriminate.
Qed.

Lemma yearlyGrowthAndDiff_numeric (ym : list (N * N)) (sy : list N) (year : N) (i : Z) :
  all_chars not_LF (fst (yearlyGrowthAndDiff ym sy year i)) = true
  /\ numeric_text (snd (yearlyGrowthAndDiff ym sy year i)) = true.
Proof.
  unfold yearlyGrowthAndDiff.
  destruct (i >? 0)%Z; [| split; reflexivity].
  destruct (num_gt _ _); cbn [fst snd]; (split; [| apply toString_numeric]).
  - no_LF_row.
  - reflexivity.
Qed.

Lemma yearlyRow_edges (ym : list (N * N)) (sy : list N) (year : N) (i : Z) :
  trim (yearlyRow ym sy year i) = yearlyRow ym sy year i
  /\ all_chars not_comma (yearlyRow ym sy year i) = false
  /\ line_ok (yearlyRow ym sy year i).
Proof.
  destruct (yearlyGrowthAndDiff_numeric ym sy year i) as [Hg Hd].
  destruct (numeric_text_last _ Hd) as (c & Hc & Hn).
  assert (Hne : snd (yearlyGrowthAndDiff ym sy year i) <> "") by (intros E; rewrite E in Hd; discriminate).
  assert (Hlast : lastChar (yearlyRow ym sy year i) = Some c).
  { unfold yearlyRow.
    repeat (rewrite lastChar_append;
            [| first [ exact Hne | cbn [append]; discriminate
                     | repeat apply append_not_nil_r; first [exact Hne | cbn [append]; discriminate] ] ]).
    exact Hc. }
  split; [| split; [| split]].
  - apply trim_id.
    + unfold yearlyRow. apply leading_none_numeric, toString_numeric.
    + apply trailing_none_last_char with (c := c);
        [exact Hlast | apply numeric_char_not_ws_tail; exact Hn].
  - unfold yearlyRow. apply has_comma_append.
  - unfold yearlyRow. no_LF_row.
    rewrite Hg, (numeric_text_no_LF _ Hd). reflexivity.
  - rewrite Hlast. intros [= ->]. exact (numeric_char_not_CR _ Hn eq_refl).
Qed.

Lemma yearlyRows_edges (ym : list (N * N)) (sy l : list N) (i : Z) :
  Forall (fun line => trim line = line /\ all_chars not_comma line = false)
    (mapi_from (yearlyRow ym sy) l i)
  /\ Forall line_ok (mapi_from (yearlyRow ym sy) l i).
Proof.
  revert i. induction l as [| y l IH]; intros i; cbn [mapi_from].
  - split; constructor.
  - destruct (IH (i + 1)%Z) as [IH1 IH2].
    destruct (yearlyRow_edges ym sy y i) as (E1 & E2 & E3).
    split; constructor; auto.
Qed.

Lemma double_quotes_no_LF (s : string) :
  all_chars not_LF s = true -> all_chars not_LF (double_quotes s) = true.
Proof.
  induction s as [| c s IH]; [reflexivity |].
  cbn [all_chars double_quotes]. intros E. apply andb_true_iff in E as [Hc Hs].
  destruct (Ascii.eqb c dquote) eqn:Eq; cbn [all_chars]; rewrite (IH Hs).
  - apply Ascii.eqb_eq in Eq. subst c. reflexivity.
  - rewrite Hc. reflexivity.
Qed.

Lemma holdingRow_line_ok (h : CalculatedHolding.t N) :
  holding_exportable (CalculatedHolding.holding h) -> line_ok (holdingRow h).
Proof.
  intros (H1 & H2 & H3 & H4 & _). split.
  - unfold holdingRow. no_LF_row.
  - unfold holdingRow. repeat (rewrite lastChar_append; [| row_not_nil]). discriminate.
Qed.

Lemma dividendRow_line_ok (r : DividendRecord.t N) :
  dividend_exportable r -> line_ok (dividendRow r).
Proof.
  intros (H1 & H2 & H3 & _ & _ & _ & Hn). split.
  - unfold dividendRow. no_LF_row. rewrite (double_quotes_no_LF _ Hn). reflexivity.
  - unfold dividendRow. repeat (rewrite lastChar_append; [| row_not_nil]).
    change (String dquote (double_quotes (note_text r) ++ String dquote ""))
      with (String dquote (double_quotes (note_text r)) ++ String dquote "").
    rewrite lastChar_append by discriminate. discriminate.
Qed.

Lemma enriched_exportable (hs : list (Holding.t N)) :
  Forall holding_exportable hs ->
  Forall (fun h => holding_exportable (CalculatedHolding.holding h))
    (calculatedHoldings hs).
Proof.
  intros Hhs. unfold calculatedHoldings. apply Array_sort_Forall.
  induction Hhs as [| h hs Hh _ IH]; cbn; constructor; assumption.
Qed.

Lemma exportLines_ok (state : AppState.t N) :
  Forall holding_exportable (AppState.holdings state) ->
  Forall dividend_exportable (AppState.dividendRecords state) ->
  Forall line_ok (exportLines state).
Proof.
  intros Hh Hd. unfold exportLines.
  apply Forall_app; split; [| apply Forall_app; split; [| apply Forall_app; split;
    [| apply Forall_app; split; [| apply Forall_app; split]]]].
  - repeat apply Forall_cons; try apply Forall_nil;
      try (split; [reflexivity | cbn; discriminate]).
    + apply summaryRow_edges.
    + apply line_ok_numeric, toString_numeric.
  - apply Forall_forall. intros l Hl. apply in_map_iff in Hl as (h & <- & Hin).
    apply holdingRow_line_ok.
    exact (proj1 (Forall_forall _ _) (enriched_exportable _ Hh) h Hin).
  - repeat apply Forall_cons; try apply Forall_nil;
      (split; [reflexivity | cbn; discriminate]).
  - apply yearlyRows_edges.
  - repeat apply Forall_cons; try apply Forall_nil;
      (split; [reflexivity | cbn; discriminate]).
  - apply Forall_forall. intros l Hl. apply in_map_iff in Hl as (r & <- & Hin).
    apply dividendRow_line_ok. exact (proj1 (Forall_forall _ _) Hd r Hin).
Qed.

Lemma parse_summary_and_cash (state : AppState.t N) :
  parseFloat (toString (AppState.cash state)) = AppState.cash state ->
  isNaN (AppState.cash state) = false ->
  fold_left importLine
    [ "[SUMMARY]";
      "Total Assets,Stock Value,Bond Value,Cash Value,Total Cost,Total Profit,Total ROI,Stock Ratio,Bond Ratio";
      summaryRow (summary (calculatedHoldings (AppState.holdings state))
                    (AppState.cash state));
      "";
      "[CASH]";
      toString (AppState.cash state);
      "";
      "[HOLDINGS]";
      "id,name,code,type,quantity,avgPrice,currentPrice,cost,presentValue,profit,roi" ]
    (Parsed.mk "" None [] [])
  = Parsed.mk "HOLDINGS" (Some (AppState.cash state)) [] [].
Proof.
  intros Hparse Hnan. cbn [fold_left].
  rewrite importLine_SUMMARY. unfold setSection at 1. cbn [Parsed.tempCash Parsed.tempHoldings Parsed.tempDividends].
  rewrite (importLine_ignored (Parsed.mk "SUMMARY" None [] []));
    [| left; reflexivity | vm_compute; reflexivity | vm_compute; reflexivity].
  destruct (summaryRow_edges
              (summary (calculatedHoldings (AppState.holdings state))
                 (AppState.cash state))) as (Et & Ec & _).
  rewrite (importLine_ignored (Parsed.mk "SUMMARY" None [] []));
    [| left; reflexivity | exact Et | exact Ec].
  rewrite importLine_blank, importLine_CASH. unfold setSection at 1.
  cbn [Parsed.tempCash Parsed.tempHoldings Parsed.tempDividends].
  rewrite (importLine_cash_value toString_numeric) by (try reflexivity; assumption).
  cbn [Parsed.tempCash Parsed.tempHoldings Parsed.tempDividends].
  rewrite importLine_blank, importLine_HOLDINGS. unfold setSection at 1.
  cbn [Parsed.tempCash Parsed.tempHoldings Parsed.tempDividends].
  rewrite importLine_holdings_header by reflexivity. reflexivity.
Qed.

Lemma parse_yearly_head (p : Parsed.t N) :
  fold_left importLine [""; "[YEARLY_PERFORMANCE]"; "Year,Total Amount,YoY Growth,YoY Diff"] p
  = setSection p "YEARLY_PERFORMANCE".
Proof.
  cbn [fold_left]. rewrite importLine_blank, importLine_YEARLY_PERFORMANCE.
  apply importLine_ignored; [right; reflexivity | |]; vm_compute; reflexivity.
Qed.

Lemma parse_dividends_head (p : Parsed.t N) :
  fold_left importLine [""; "[DIVIDENDS]"; "id,date,ticker,amount,note"] p
  = setSection p "DIVIDENDS".
Proof.
  cbn [fold_left]. rewrite importLine_blank, importLine_DIVIDENDS.
  apply importLine_dividends_header. reflexivity.
Qed.

(** What the import reads in a file the export wrote. *)
Lemma parse_exported (state : AppState.t N) :
  Forall holding_exportable (AppState.holdings state) ->
  Forall dividend_exportable (AppState.dividendRecords state) ->
  parseFloat (toString (AppState.cash state)) = AppState.cash state ->
  isNaN (AppState.cash state) = false ->
  parseBackup (readAsText (handleExportCSV state))
  = Parsed.mk "DIVIDENDS" (Some (AppState.cash state))
      (displayOrder (AppState.holdings state))
      (map as_imported (AppState.dividendRecords state)).
Proof.
  intros Hh Hd Hparse Hnan.
  rewrite export_as_lines, readAsText_BOM. unfold parseBackup.
  rewrite (split_lines_lines _ (exportLines_ok state Hh Hd)).
  unfold exportLines. rewrite !fold_left_app.
  rewrite (parse_summary_and_cash state Hparse Hnan).
  rewrite (fold_importLine_holdingRows toString_numeric toFixed_numeric)
    by (try reflexivity; apply enriched_exportable; exact Hh).
  rewrite parse_yearly_head. unfold setSection at 1.
  cbn [Parsed.tempCash Parsed.tempHoldings Parsed.tempDividends List.app].
  rewrite (fold_importLine_ignored (mapi _ _));
    [| right; reflexivity | apply (proj1 (yearlyRows_edges _ _ _ _))].
  rewrite parse_dividends_head. unfold setSection at 1.
  cbn [Parsed.tempCash Parsed.tempHoldings Parsed.tempDividends].
  rewrite (fold_importLine_dividendRows toString_numeric) by (try reflexivity; exact Hd).
  cbn [fold_left Parsed.tempCash Parsed.tempHoldings Parsed.tempDividends List.app].
  rewrite importLine_blank. reflexivity.
Qed.

(** Exporting a state and importing the file again, into whatever state,
    gives the holdings in display order, the cash, and the dividend records
    with the five columns of the file: this for holdings and records the
    backup carries (plain columns, numbers that read back from their print,
    notes without a line feed), a cash that reads back and is a number,
    and a state the guard of the import does not take for empty; the note
    of every record comes back character for character. *)
Theorem export_then_import (state earlier : AppState.t N) :
  Forall holding_exportable (AppState.holdings state) ->
  Forall dividend_exportable (AppState.dividendRecords state) ->
  parseFloat (toString (AppState.cash state)) = AppState.cash state ->
  isNaN (AppState.cash state) = false ->
  ~ (AppState.holdings state = [] /\ AppState.dividendRecords state = []
     /\ truthy (AppState.cash state) = false) ->
  handleImportCSV (readAsText (handleExportCSV state)) true earlier
  = (AppState.mk (displayOrder (AppState.holdings state)) (AppState.cash state)
       (map as_imported (AppState.dividendRecords state)),
     [ImportSucceeded]).
Proof.
  intros Hh Hd Hparse Hnan Hguard.
  unfold handleImportCSV. rewrite (parse_exported state Hh Hd Hparse Hnan).
  cbn [Parsed.tempCash Parsed.tempHoldings Parsed.tempDividends noCash].
  destruct (_ && _ && _)%bool eqn:G; [| reflexivity].
  exfalso. apply Hguard.
  apply andb_true_iff in G as [G G3]. apply andb_true_iff in G as [G1 G2].
  apply length_zero_iff_nil in G1, G3.
  repeat split.
  - unfold displayOrder, calculatedHoldings in G1.
    apply (f_equal (@List.length _)) in G1.
    rewrite length_map, Array_sort_length, length_map in G1.
    destruct (AppState.holdings state); [reflexivity | discriminate].
  - destruct (AppState.dividendRecords state); [reflexivity | discriminate].
  - apply negb_true_iff. exact G2.
Qed.

End RoundTrip.

(** ** The printer of the exact numbers prints numbers *)

Section XnumText.
Local Open Scope string_scope.

Lemma digit_char_numeric (d : Z) : numeric_char (digit_char d) = true.
Proof.
  unfold digit_char.
  pose proof (Z.mod_pos_bound d 10 eq_refl) as Hb.
  assert (Hk : (Z.to_nat (d mod 10) < 10)%nat) by lia.
  destruct (Z.to_nat (d mod 10)) as [| k]; [reflexivity |].
  do 9 (destruct k as [| k]; [reflexivity |]). lia.
Qed.

Lemma uint_string_numeric (u : Decimal.uint) :
  all_chars numeric_char (DecimalString.NilEmpty.string_of_uint u) = true.
Proof.
  induction u; cbn [DecimalString.NilEmpty.string_of_uint all_chars];
    rewrite ?IHu; reflexivity.
Qed.

Lemma natural_string_numeric (z : Z) :
  natural_string z <> "" /\ all_chars numeric_char (natural_string z) = true.
Proof.
  unfold natural_string, DecimalString.NilZero.string_of_uint.
  destruct (N.to_uint (Z.to_N z)) eqn:E;
    (split; [cbn; discriminate | try reflexivity]);
    apply (uint_string_numeric (_ u)).
Qed.

Lemma fraction_digits_numeric (fuel : nat) (r den : Z) :
  all_chars numeric_char (fraction_digits fuel r den) = true.
Proof.
  revert r. induction fuel as [| fuel IH]; intros r; cbn [fraction_digits];
    [reflexivity |].
  destruct (r =? 0)%Z; [reflexivity |].
  cbn [all_chars]. rewrite digit_char_numeric, IH. reflexivity.
Qed.

Lemma fixed_digits_numeric (k : nat) (z : Z) :
  all_chars numeric_char (fixed_digits k z) = true.
Proof.
  induction k as [| k IH]; cbn [fixed_digits all_chars]; [reflexivity |].
  rewrite digit_char_numeric, IH. reflexivity.
Qed.

Lemma numeric_text_intro (s : string) :
  s <> "" -> all_chars numeric_char s = true -> numeric_text s = true.
Proof.
  intros Hne Hall. unfold numeric_text. rewrite Hall.
  apply String.eqb_neq in Hne. rewrite Hne. reflexivity.
Qed.

Lemma append_not_nil_l (a b : string) : a <> "" -> a ++ b <> "".
Proof. destruct a; [contradiction | discriminate]. Qed.

Lemma xnum_toString_numeric (x : xnum) : numeric_text (xnum_toString x) = true.
Proof.
  destruct x as [| q]; [reflexivity |]. unfold xnum_toString.
  destruct (natural_string_numeric (Z.abs (Qnum q) / Z.pos (Qden q))) as [Hne Hall].
  apply numeric_text_intro.
  - apply append_not_nil_r, append_not_nil_l. exact Hne.
  - rewrite !all_chars_append, Hall.
    destruct (Qnum q <? 0)%Z; destruct (_ =? 0)%Z; cbn [all_chars andb append];
      rewrite ?fraction_digits_numeric; reflexivity.
Qed.

Lemma xnum_toFixed_numeric (x : xnum) (d : nat) : numeric_text (xnum_toFixed x d) = true.
Proof.
  destruct x as [| q]; [reflexivity |]. unfold xnum_toFixed.
  set (n := Qfloor _).
  destruct (natural_string_numeric (n / 10 ^ Z.of_nat d)) as [Hne Hall].
  apply numeric_text_intro.
  - apply append_not_nil_r, append_not_nil_l. exact Hne.
  - rewrite !all_chars_append, Hall.
    destruct (Qnum q <? 0)%Z; destruct d; cbn [all_chars andb append];
      rewrite ?fixed_digits_numeric; reflexivity.
Qed.

End XnumText.

(** The round trip at a state whose holdings are not in display order:
    they come back in display order, the ex-dividend date is gone, the
    missing note is the empty note, and the note with commas and quotes is
    as it was. *)
Lemma export_then_import_witness :
  handleImportCSV (readAsText (handleExportCSV a_portfolio)) true an_earlier_state
  = (AppState.mk
       [ Holding.mk "1" "元大台灣50" "0050" AssetType.STOCK
           (lit 22000) (lit 62.35) (lit 63.7);
         Holding.mk "5" "群益台灣精選高息" "00919" AssetType.STOCK
           (lit 40000) (lit 21.62) (lit 22.46) ]
       (lit 1000000)
       [ DividendRecord.mk "1" "2023-10-20" None "0056" (lit 24000)
           (Some (String "Q" (String "3" (String "," (String " " (String dquote
              (String "x" (String dquote (String "," (String "y" ""))))))))));
         DividendRecord.mk "2" "2023-11-15" None "00878" (lit 12000.5) (Some "") ],
     [ImportSucceeded]).
Proof.
  refine (eq_trans
            (export_then_import xnum_toString_numeric xnum_toFixed_numeric
               a_portfolio an_earlier_state _ _ _ _ _) _).
  - repeat constructor; vm_compute; try reflexivity; discriminate.
  - repeat constructor; vm_compute; try reflexivity; discriminate.
  - vm_compute. reflexivity.
  - reflexivity.
  - intros (E & _). discriminate E.
  - vm_compute. reflexivity.
Defined.

(** ** More on the import *)

Section ImportExtras.
Context {N : Type} `{Number N} `{NumberText N}.
Local Open Scope string_scope.

(** The quoting of a note by the export and its reading by the import are
    inverse to each other, whatever the note holds: the quoted note begins
    and ends with a quote, and dropping them and halving the doubled quotes
    gives the note back. *)
Theorem note_quoting_round_trip (note : string) :
  let quoted := String dquote (double_quotes note ++ String dquote "") in
  (startsWith quoted (String dquote "") && endsWith quoted (String dquote ""))%bool = true
  /\ undouble_quotes (slice_1_m1 quoted) = note.
Proof.
  cbn zeta. rewrite quoted_startsWith, quoted_endsWith, quoted_slice, undouble_double.
  split; reflexivity.
Qed.

(** Outside a section no line is read. *)
Lemma importLine_no_section (p : Parsed.t N) (line : string) :
  Parsed.section p = "" -> isSectionMark (trim line) = false -> importLine p line = p.
Proof.
  intros Hsec Hm. unfold isSectionMark, sectionMarks in Hm. cbn [existsb] in Hm.
  repeat (apply orb_false_iff in Hm as [? Hm]).
  unfold importLine. rewrite Hsec.
  repeat match goal with E : String.eqb _ _ = false |- _ => rewrite E; clear E end.
  destruct (String.eqb (trim line) ""); reflexivity.
Qed.

(** A text none of whose lines is a section mark is rejected: the one
    notification of an invalid format, and the state as it was. *)
Theorem backup_without_section_mark_is_rejected
    (text : string) (confirmed : bool) (state : AppState.t N) :
  Forall (fun line => isSectionMark (trim line) = false) (split_lines text) ->
  handleImportCSV text confirmed state = (state, [ImportFormatInvalid]).
Proof.
  intros Hl.
  assert (E : parseBackup text = Parsed.mk "" None [] []).
  { unfold parseBackup. induction Hl as [| line ls Hline _ IH]; [reflexivity |].
    cbn [fold_left]. rewrite importLine_no_section by (try reflexivity; exact Hline).
    exact IH. }
  unfold handleImportCSV. rewrite E. reflexivity.
Qed.

(** An import never makes the cash NaN: after it the cash is a number
    whenever it was one before. *)
Theorem import_keeps_cash_a_number
    (text : string) (confirmed : bool) (state : AppState.t N) :
  isNaN (AppState.cash state) = false ->
  isNaN (AppState.cash (fst (handleImportCSV text confirmed state))) = false.
Proof.
  intros Hs. unfold handleImportCSV.
  destruct (_ && _ && _)%bool; [exact Hs |].
  destruct confirmed; [| exact Hs].
  cbn [fst AppState.cash].
  destruct (Parsed.tempCash (parseBackup text)) as [c |] eqn:Ec; [| exact Hs].
  exact (parseBackup_cash_not_NaN text c Ec).
Qed.

End ImportExtras.

(** A text without a section mark, at the exact numbers. *)
Lemma backup_without_section_mark_is_rejected_witness :
  handleImportCSV markless_backup true an_earlier_state
  = (an_earlier_state, [ImportFormatInvalid]).
Proof.
  apply backup_without_section_mark_is_rejected.
  repeat constructor.
Defined.

(** The cash stays a number through the import of a file whose cash
    section holds text. *)
Lemma import_keeps_cash_a_number_witness :
  isNaN (AppState.cash
           (fst (handleImportCSV
                   (lines ["[CASH]"; "none"; "[HOLDINGS]"; "1,A,0050,STOCK,1,2,3"])
                   true an_earlier_state)))
  = false.
Proof.
  apply import_keeps_cash_a_number. reflexivity.
Defined.

(** ** Sorting *)

Section SortProperties.
Context {N : Type} `{Number N} {A : Type}.
Variable compareFn : A -> A -> N.

Lemma sort_insert_permutation (x : A) (l : list A) :
  Permutation (x :: l) (sort_insert compareFn x l).
Proof.
  induction l as [| y l IH]; cbn; [reflexivity |].
  destruct (num_gt _ _); [| reflexivity].
  rewrite perm_swap. constructor. exact IH.
Qed.

Lemma Array_sort_permutation (l : list A) : Permutation l (Array_sort compareFn l).
Proof.
  induction l as [| x l IH]; [reflexivity |].
  change (Array_sort compareFn (x :: l))
    with (sort_insert compareFn x (Array_sort compareFn l)).
  rewrite <- sort_insert_permutation. constructor. exact IH.
Qed.

Hypothesis behind_asym : forall a b, goes_behind compareFn a b = true -> goes_behind compareFn b a = false.
Hypothesis not_behind_trans :
  forall a b c, goes_behind compareFn a b = false -> goes_behind compareFn b c = false ->
                goes_behind compareFn a c = false.

Lemma sort_insert_sorted (x : A) (l : list A) :
  StronglySorted (fun a b => goes_behind compareFn a b = false) l ->
  StronglySorted (fun a b => goes_behind compareFn a b = false) (sort_insert compareFn x l).
Proof.
  induction 1 as [| y l Hl IH Hy]; cbn.
  - repeat constructor.
  - fold (goes_behind compareFn x y). destruct (goes_behind compareFn x y) eqn:E.
    + constructor; [exact IH |].
      apply (Permutation_Forall (sort_insert_permutation x l)).
      constructor; [apply behind_asym; exact E | exact Hy].
    + constructor; [constructor; assumption |].
      constructor; [exact E |].
      apply (Forall_impl _ (fun z Hz => not_behind_trans x y z E Hz) Hy).
Qed.

Lemma Array_sort_sorted (l : list A) :
  StronglySorted (fun a b => goes_behind compareFn a b = false) (Array_sort compareFn l).
Proof.
  induction l as [| x l IH]; [constructor |].
  change (Array_sort compareFn (x :: l))
    with (sort_insert compareFn x (Array_sort compareFn l)).
  apply sort_insert_sorted. exact IH.
Qed.

(** Stability: elements of one key keep their order. *)
Variable key : A -> Z.
Hypothesis behind_other_key : forall a b, goes_behind compareFn a b = true -> key a <> key b.

Lemma sort_insert_stable (k : Z) (x : A) (l : list A) :
  filter (fun a => (key a =? k)%Z) (sort_insert compareFn x l)
  = filter (fun a => (key a =? k)%Z) (x :: l).
Proof.
  induction l as [| y l IH]; [reflexivity |].
  cbn [sort_insert]. fold (goes_behind compareFn x y). destruct (goes_behind compareFn x y) eqn:E;
    [| reflexivity].
  apply behind_other_key in E.
  cbn [filter] in *. rewrite IH.
  destruct (key x =? k)%Z eqn:Ex; destruct (key y =? k)%Z eqn:Ey; try reflexivity.
  exfalso. apply Z.eqb_eq in Ex, Ey. congruence.
Qed.

Lemma Array_sort_stable (k : Z) (l : list A) :
  filter (fun a => (key a =? k)%Z) (Array_sort compareFn l)
  = filter (fun a => (key a =? k)%Z) l.
Proof.
  induction l as [| x l IH]; [reflexivity |].
  change (Array_sort compareFn (x :: l))
    with (sort_insert compareFn x (Array_sort compareFn l)).
  rewrite sort_insert_stable. cbn [filter]. rewrite IH. reflexivity.
Qed.

End SortProperties.

Lemma StronglySorted_weaken {A : Type} (R R' : A -> A -> Prop) (l : list A) :
  (forall a b, R a b -> R' a b) -> StronglySorted R l -> StronglySorted R' l.
Proof.
  intros HR. induction 1 as [| x l Hl IH Hx]; constructor; [exact IH |].
  exact (Forall_impl _ (HR x) Hx).
Qed.

(** ** The display order of the holdings *)

Section DisplayOrder.
Local Open Scope Z_scope.

Lemma indexOf_from_range (l : list string) (x : string) (i : Z) :
  indexOf_from l x i = -1 \/ (i <= indexOf_from l x i < i + Z.of_nat (List.length l)).
Proof.
  revert i. induction l as [| y l IH]; intros i; cbn [indexOf_from List.length].
  - left. reflexivity.
  - destruct (String.eqb y x); [right; lia |].
    destruct (IH (i + 1)) as [E | E]; [left; exact E | right; lia].
Qed.

Lemma displayRank_range (code : string) : 0 <= displayRank code <= 6.
Proof.
  unfold displayRank, indexOf.
  destruct (indexOf_from_range customOrder code 0) as [E | E].
  - rewrite E. cbn. lia.
  - cbn [List.length customOrder] in E.
    destruct (indexOf_from customOrder code 0 =? -1) eqn:E1; lia.
Qed.

(** On exact rationals the comparator of the display order says that [a]
    goes behind [b] exactly when its rank is larger. *)
Lemma positive_difference (ia ib : Z) :
  negb (Qle_bool (inject_Z (ia - ib)) 0) = (ib <? ia).
Proof.
  destruct (ib <? ia) eqn:E.
  - apply negb_true_iff. destruct (Qle_bool (inject_Z (ia - ib)) 0) eqn:Hq; [| reflexivity].
    apply Qle_bool_iff in Hq. apply Z.ltb_lt in E.
    change 0%Q with (inject_Z 0) in Hq. rewrite <- Zle_Qle in Hq. lia.
  - apply negb_false_iff. apply Qle_bool_iff. apply Z.ltb_ge in E.
    change 0%Q with (inject_Z 0). rewrite <- Zle_Qle. lia.
Qed.

Lemma compareByCustomOrder_rank (a b : CalculatedHolding.t Q) :
  goes_behind compareByCustomOrder a b = (rankOf b <? rankOf a).
Proof.
  unfold goes_behind, compareByCustomOrder, rankOf, displayRank, indexOf.
  pose proof (indexOf_from_range customOrder
                (Holding.code (CalculatedHolding.holding a)) 0) as Ra.
  pose proof (indexOf_from_range customOrder
                (Holding.code (CalculatedHolding.holding b)) 0) as Rb.
  cbn [List.length customOrder] in Ra, Rb.
  set (ia := indexOf_from customOrder (Holding.code (CalculatedHolding.holding a)) 0) in *.
  set (ib := indexOf_from customOrder (Holding.code (CalculatedHolding.holding b)) 0) in *.
  clearbody ia ib.
  destruct (Z.eqb_spec ia (-1)) as [Ea | Ea]; destruct (Z.eqb_spec ib (-1)) as [Eb | Eb];
    cbn [negb andb].
  - reflexivity.
  - q_red. change (negb (Qle_bool 1 0)) with true. symmetry. apply Z.ltb_lt. lia.
  - q_red. change (negb (Qle_bool (-1) 0)) with false. symmetry. apply Z.ltb_ge. lia.
  - q_red. apply positive_difference.
Qed.

(** Whatever the numbers are, the calculated holdings are the enriched
    holdings, each once, in some order. *)
Theorem calculatedHoldings_permutation {N : Type} `{Number N}
    (holdings : list (Holding.t N)) :
  Permutation (map enrichHolding holdings) (calculatedHoldings holdings).
Proof.
  apply Array_sort_permutation.
Qed.

(** On exact rationals the calculated holdings come by rank: the codes of
    the display order first and in that order, every other code behind
    them; and the holdings of one rank, so those of codes outside the
    display order too, keep the order they had. *)
Theorem calculatedHoldings_by_rank (holdings : list (Holding.t Q)) :
  StronglySorted (fun a b => rankOf a <= rankOf b) (calculatedHoldings holdings)
  /\ (forall k : Z,
        filter (fun h => rankOf h =? k) (calculatedHoldings holdings)
        = filter (fun h => rankOf h =? k) (map enrichHolding holdings)).
Proof.
  split.
  - unfold calculatedHoldings.
    apply (StronglySorted_weaken
             (fun a b => goes_behind compareByCustomOrder a b = false)).
    + intros a b E. rewrite compareByCustomOrder_rank in E. apply Z.ltb_ge in E. exact E.
    + apply (Array_sort_sorted compareByCustomOrder).
      * intros a b. rewrite !compareByCustomOrder_rank.
        intros E. apply Z.ltb_lt in E. apply Z.ltb_ge. lia.
      * intros a b c. rewrite !compareByCustomOrder_rank.
        intros E1 E2. apply Z.ltb_ge in E1, E2. apply Z.ltb_ge. lia.
  - intros k. unfold calculatedHoldings.
    apply (Array_sort_stable compareByCustomOrder rankOf).
    intros a b. rewrite compareByCustomOrder_rank. intros E. apply Z.ltb_lt in E. lia.
Qed.

End DisplayOrder.

(** ** The summary and the order of the holdings *)

Section SummaryOrder.
Local Open Scope Q_scope.
Import PortfolioSummary.

Lemma Qsum_cons (x : Q) (l : list Q) : Qsum (x :: l) = x + Qsum l.
Proof. reflexivity. Qed.

Lemma Qsum_filter_perm {A : Type} (f : A -> Q) (P : A -> bool) (l l' : list A) :
  Permutation l l' -> Qsum (map f (filter P l)) == Qsum (map f (filter P l')).
Proof.
  induction 1 as [| x l l' _ IH | x y l | l l' l'' _ IH1 _ IH2].
  - reflexivity.
  - cbn [filter]. destruct (P x); [| exact IH].
    cbn [map]. rewrite !Qsum_cons, IH. reflexivity.
  - cbn [filter]. destruct (P x); destruct (P y); cbn [map]; rewrite ?Qsum_cons;
      try reflexivity.
    ring.
  - rewrite IH1. exact IH2.
Qed.

Lemma Qsum_perm {A : Type} (f : A -> Q) (l l' : list A) :
  Permutation l l' -> Qsum (map f l) == Qsum (map f l').
Proof.
  induction 1 as [| x l l' _ IH | x y l | l l' l'' _ IH1 _ IH2].
  - reflexivity.
  - cbn [map]. rewrite !Qsum_cons, IH. reflexivity.
  - cbn [map]. rewrite !Qsum_cons. ring.
  - rewrite IH1. exact IH2.
Qed.

Lemma guarded_ratio_comp (a a' b b' : Q) :
  a == a' -> b == b' ->
  (if Qeq_bool b 0 then 0 else a / b * 100) == (if Qeq_bool b' 0 then 0 else a' / b' * 100).
Proof.
  intros Ea Eb.
  destruct (Qeq_bool b 0) eqn:E; destruct (Qeq_bool b' 0) eqn:E'.
  - reflexivity.
  - apply Qeq_bool_iff in E. rewrite Eb in E. apply Qeq_bool_iff in E. congruence.
  - apply Qeq_bool_iff in E'. rewrite <- Eb in E'. apply Qeq_bool_iff in E'. congruence.
  - rewrite Ea, Eb. reflexivity.
Qed.

(** The summary does not depend on the order of the holdings: two lists
    with the same holdings give the same nine fields. *)
Theorem summary_ignores_order (l l' : list (CalculatedHolding.t Q)) (cash : Q) :
  Permutation l l' -> same_summary (summary l cash) (summary l' cash).
Proof.
  intros Hp.
  assert (Es : stockValue (summary l cash) == stockValue (summary l' cash)).
  { rewrite !stockValue_is_sum. apply Qsum_filter_perm. exact Hp. }
  assert (Eb : bondValue (summary l cash) == bondValue (summary l' cash)).
  { rewrite !bondValue_is_sum. apply Qsum_filter_perm. exact Hp. }
  assert (Ec : totalCost (summary l cash) == totalCost (summary l' cash)).
  { rewrite !totalCost_is_sum. apply Qsum_perm. exact Hp. }
  unfold same_summary. unfold summary in *. q_red. q_red in Es. q_red in Eb. q_red in Ec.
  repeat split; try assumption; try reflexivity.
  - rewrite Es, Eb. reflexivity.
  - rewrite Es, Eb, Ec. reflexivity.
  - apply guarded_ratio_comp; [rewrite Es, Eb, Ec; reflexivity | exact Ec].
  - apply guarded_ratio_comp; [exact Es | rewrite Es, Eb; reflexivity].
  - apply guarded_ratio_comp; [exact Eb | rewrite Es, Eb; reflexivity].
Qed.

(** The summary of the holdings in display order is the summary of the
    holdings as entered. *)
Lemma summary_ignores_order_witness :
  same_summary
    (summary (calculatedHoldings (N := Q) (rev INITIAL_HOLDINGS)) INITIAL_CASH)
    (summary (map enrichHolding (rev INITIAL_HOLDINGS)) INITIAL_CASH).
Proof.
  apply summary_ignores_order. symmetry. apply calculatedHoldings_permutation.
Defined.

(** A holding whose type is neither STOCK nor BOND counts in the total
    cost and nowhere else: put in front of the list it leaves stock value,
    bond value and total assets as they are, raises the total cost by its
    cost, and so lowers the total profit by its cost. *)
Theorem holding_of_another_type_only_costs
    (h : CalculatedHolding.t Q) (hs : list (CalculatedHolding.t Q)) (cash : Q) :
  Holding.type (CalculatedHolding.holding h) <> AssetType.STOCK ->
  Holding.type (CalculatedHolding.holding h) <> AssetType.BOND ->
  let s := summary hs cash in
  let s' := summary (h :: hs) cash in
  stockValue s' == stockValue s /\ bondValue s' == bondValue s
  /\ totalAssets s' == totalAssets s
  /\ totalCost s' == totalCost s + CalculatedHolding.cost h
  /\ totalProfit s' == totalProfit s - CalculatedHolding.cost h.
Proof.
  intros Hs Hb s s'.
  assert (Es : stockValue s' == stockValue s).
  { subst s s'. rewrite !stockValue_is_sum. cbn [filter]. unfold isType at 1.
    apply String.eqb_neq in Hs. rewrite Hs. reflexivity. }
  assert (Eb : bondValue s' == bondValue s).
  { subst s s'. rewrite !bondValue_is_sum. cbn [filter]. unfold isType at 1.
    apply String.eqb_neq in Hb. rewrite Hb. reflexivity. }
  assert (Ec : totalCost s' == totalCost s + CalculatedHolding.cost h).
  { subst s s'. rewrite !totalCost_is_sum. cbn [map]. rewrite Qsum_cons. ring. }
  subst s s'. unfold summary in *. q_red. q_red in Es. q_red in Eb. q_red in Ec.
  repeat split; try assumption.
  - rewrite Es, Eb. reflexivity.
  - rewrite Es, Eb, Ec. ring.
Qed.

(** A holding imported with the type FUND. *)
Lemma holding_of_another_type_only_costs_witness :
  let h := enrichHolding (Holding.mk "7" "X" "0051" "FUND" 100 10 12) in
  let s := summary (calculatedHoldings (N := Q) INITIAL_HOLDINGS) INITIAL_CASH in
  let s' := summary (h :: calculatedHoldings (N := Q) INITIAL_HOLDINGS) INITIAL_CASH in
  totalAssets s' == totalAssets s /\ totalProfit s' == totalProfit s - 1000.
Proof.
  destruct (holding_of_another_type_only_costs
              (enrichHolding (Holding.mk "7" "X" "0051" "FUND" 100 10 12))
              (calculatedHoldings (N := Q) INITIAL_HOLDINGS) INITIAL_CASH)
    as (_ & _ & Ha & _ & Hp); [discriminate | discriminate |].
  split; [exact Ha |]. rewrite Hp. vm_compute. reflexivity.
Defined.

End SummaryOrder.

(** ** Grouping by year and by ticker *)

Section Grouping.
Local Open Scope Q_scope.

Lemma addToKey_keys (acc : list (string * Q)) (key : string) (amount : Q) :
  map fst (addToKey acc key amount)
  = if existsb (String.eqb key) (map fst acc) then map fst acc
    else (map fst acc ++ [key])%list.
Proof.
  induction acc as [| [k v] acc IH]; [reflexivity |].
  cbn [addToKey map fst existsb]. rewrite (String.eqb_sym key k).
  destruct (String.eqb k key) eqn:E; [reflexivity |].
  cbn [map fst orb]. rewrite IH. destruct (existsb _ _); reflexivity.
Qed.

Lemma addToKey_NoDup (acc : list (string * Q)) (key : string) (amount : Q) :
  NoDup (map fst acc) -> NoDup (map fst (addToKey acc key amount)).
Proof.
  intros Hn. rewrite addToKey_keys.
  destruct (existsb (String.eqb key) (map fst acc)) eqn:E; [exact Hn |].
  apply NoDup_app; [exact Hn | repeat constructor; intros [] | ].
  intros k Hk [Ek | []]. subst k.
  assert (Ex : existsb (String.eqb key) (map fst acc) = true)
    by (apply existsb_exists; exists key; split; [exact Hk | apply String.eqb_refl]).
  congruence.
Qed.

Lemma addToKey_total (acc : list (string * Q)) (key : string) (amount : Q) (k : string) :
  totalOf k (addToKey acc key amount)
  == totalOf k acc + (if String.eqb key k then amount else 0).
Proof.
  unfold totalOf. induction acc as [| [k0 v] acc IH].
  - cbn [addToKey filter fst map]. destruct (String.eqb key k); cbn [map snd];
      rewrite ?Qsum_cons; unfold Qsum; cbn [fold_right]; ring.
  - cbn [addToKey]. destruct (String.eqb k0 key) eqn:E.
    + apply String.eqb_eq in E. subst k0.
      cbn [filter fst]. destruct (String.eqb key k); cbn [map snd];
        rewrite ?Qsum_cons; ring.
    + cbn [filter fst]. destruct (String.eqb k0 k); cbn [map snd];
        rewrite ?Qsum_cons, IH; ring.
Qed.

Lemma fold_addToKey_NoDup {A : Type} (key : A -> string) (val : A -> Q) (l : list A)
    (acc : list (string * Q)) :
  NoDup (map fst acc) ->
  NoDup (map fst (fold_left (fun acc x => addToKey acc (key x) (val x)) l acc)).
Proof.
  revert acc. induction l as [| x l IH]; intros acc Hn; cbn [fold_left]; [exact Hn |].
  apply IH. apply addToKey_NoDup. exact Hn.
Qed.

Lemma fold_addToKey_total {A : Type} (key : A -> string) (val : A -> Q) (l : list A)
    (acc : list (string * Q)) (k : string) :
  totalOf k (fold_left (fun acc x => addToKey acc (key x) (val x)) l acc)
  == totalOf k acc + Qsum (map val (filter (fun x => String.eqb (key x) k) l)).
Proof.
  revert acc. induction l as [| x l IH]; intros acc; cbn [fold_left filter].
  - change (Qsum (map val [])) with 0. ring.
  - rewrite IH, addToKey_total.
    destruct (String.eqb (key x) k); cbn [map]; rewrite ?Qsum_cons; ring.
Qed.

Lemma fold_addToKey_keys {A : Type} (key : A -> string) (val : A -> Q) (l : list A)
    (acc : list (string * Q)) (k : string) :
  In k (map fst (fold_left (fun acc x => addToKey acc (key x) (val x)) l acc))
  <-> In k (map fst acc) \/ In k (map key l).
Proof.
  revert acc. induction l as [| x l IH]; intros acc; cbn [fold_left map].
  - cbn. tauto.
  - rewrite IH, addToKey_keys.
    destruct (existsb (String.eqb (key x)) (map fst acc)) eqn:E.
    + apply existsb_exists in E as (k' & Hk' & E). apply String.eqb_eq in E. subst k'.
      cbn [In]. split; [tauto |]. intros [Hk | [<- | Hk]]; tauto.
    + rewrite in_app_iff. cbn [In]. tauto.
Qed.

Lemma totalOf_single (l : list (string * Q)) (kv : string * Q) :
  NoDup (map fst l) -> In kv l -> totalOf (fst kv) l == snd kv.
Proof.
  unfold totalOf. induction l as [| [k v] l IH]; [intros _ [] |].
  cbn [map fst]. intros Hn Hin. inversion Hn as [| ? ? Hk Hn']; subst.
  cbn [filter fst]. destruct Hin as [<- | Hin].
  - cbn [fst snd]. rewrite String.eqb_refl. cbn [map snd]. rewrite Qsum_cons.
    assert (E : filter (fun kv => String.eqb (fst kv) k) l = []).
    { clear - Hk. induction l as [| [k' v'] l IH]; [reflexivity |].
      cbn [filter fst]. cbn [map fst In] in Hk.
      destruct (String.eqb_spec k' k) as [-> | _]; [tauto |].
      apply IH. tauto. }
    rewrite E. unfold Qsum. cbn. ring.
  - destruct (String.eqb_spec k (fst kv)) as [-> | _].
    + exfalso. apply Hk. apply in_map_iff. exists kv. split; [reflexivity | exact Hin].
    + apply IH; assumption.
Qed.

Lemma totalOf_perm (k : string) (l l' : list (string * Q)) :
  Permutation l l' -> totalOf k l == totalOf k l'.
Proof. apply Qsum_filter_perm. Qed.

(** *** By year *)

Context `{NumberText Q}.

Lemma addToYear_pairs (acc : list (YearAmount.t Q)) (year : string) (amount : Q) :
  map yearPair (addToYear acc year amount) = addToKey (map yearPair acc) year amount.
Proof.
  induction acc as [| x acc IH]; [reflexivity |].
  cbn [addToYear map]. change (yearPair x) with (YearAmount.year x, YearAmount.amount x).
  cbn [addToKey].
  destruct (String.eqb (YearAmount.year x) year); cbn [map]; [reflexivity |].
  rewrite IH. reflexivity.
Qed.

Lemma fold_addToYear_pairs (records : list (DividendRecord.t Q))
    (acc : list (YearAmount.t Q)) :
  map yearPair
    (fold_left
       (fun acc curr =>
          let year := hd "" (split "-"%char (DividendRecord.date curr)) in
          addToYear acc year (DividendRecord.amount curr))
       records acc)
  = fold_left (fun acc r => addToKey acc (yearOfRecord r) (DividendRecord.amount r))
      records (map yearPair acc).
Proof.
  revert acc. induction records as [| r records IH]; intros acc; [reflexivity |].
  cbn [fold_left]. rewrite IH, addToYear_pairs. reflexivity.
Qed.

(** The yearly trend has one entry for every year of the records it
    looks at and no other, each year once, and the amount of an entry is
    the sum of the amounts of the records of its year. *)
Theorem yearlyTrendData_groups_by_year
    (records : list (DividendRecord.t Q)) (trendTicker : string) :
  let data := yearlyTrendData records trendTicker in
  let seen := trendRecords records trendTicker in
  NoDup (map YearAmount.year data)
  /\ (forall y : string,
        In y (map YearAmount.year data) <-> In y (map yearOfRecord seen))
  /\ (forall e : YearAmount.t Q,
        In e data ->
        YearAmount.amount e
        == Qsum (map DividendRecord.amount
                   (filter (fun r => String.eqb (yearOfRecord r) (YearAmount.year e))
                      seen))).
Proof.
  intros data seen.
  set (grouped :=
         fold_left
           (fun acc curr =>
              let year := hd "" (split "-"%char (DividendRecord.date curr)) in
              addToYear acc year (DividendRecord.amount curr))
           seen []).
  assert (Hperm : Permutation grouped data).
  { subst data grouped seen. unfold yearlyTrendData, trendRecords.
    apply Array_sort_permutation. }
  assert (Hpairs : map yearPair grouped
                   = fold_left
                       (fun acc r => addToKey acc (yearOfRecord r) (DividendRecord.amount r))
                       seen []).
  { subst grouped. rewrite fold_addToYear_pairs. reflexivity. }
  assert (Hyears : forall l : list (YearAmount.t Q),
             map YearAmount.year l = map fst (map yearPair l)).
  { intros l. rewrite map_map. reflexivity. }
  assert (Hnd : NoDup (map YearAmount.year data)).
  { apply (Permutation_NoDup (Permutation_map YearAmount.year Hperm)).
    rewrite Hyears, Hpairs. apply fold_addToKey_NoDup. constructor. }
  split; [exact Hnd | split].
  - intros y.
    rewrite <- (Permutation_in' (eq_refl y) (Permutation_map YearAmount.year Hperm)).
    rewrite Hyears, Hpairs, fold_addToKey_keys. cbn [map In]. tauto.
  - intros e He.
    assert (Hin : In (yearPair e) (map yearPair data)) by (apply in_map; exact He).
    rewrite Hyears in Hnd.
    rewrite <- (totalOf_single _ _ Hnd Hin).
    rewrite <- (totalOf_perm _ _ _ (Permutation_map yearPair Hperm)).
    rewrite Hpairs, fold_addToKey_total.
    unfold totalOf at 1. cbn [filter map]. unfold Qsum at 1. cbn [fold_right].
    cbn [yearPair fst]. ring.
Qed.

End Grouping.

(** *** By ticker *)

Section TickerGrouping.
Local Open Scope Q_scope.

Lemma addToTicker_pairs (acc : list (TickerValue.t Q)) (ticker : string) (amount : Q) :
  map tickerPair (addToTicker acc ticker amount)
  = addToKey (map tickerPair acc) ticker amount.
Proof.
  induction acc as [| x acc IH]; [reflexivity |].
  cbn [addToTicker map].
  change (tickerPair x) with (TickerValue.name x, TickerValue.value x).
  cbn [addToKey].
  destruct (String.eqb (TickerValue.name x) ticker); cbn [map]; [reflexivity |].
  rewrite IH. reflexivity.
Qed.

Lemma fold_addToTicker_pairs (records : list (DividendRecord.t Q))
    (acc : list (TickerValue.t Q)) :
  map tickerPair
    (fold_left
       (fun acc curr =>
          addToTicker acc (DividendRecord.ticker curr) (DividendRecord.amount curr))
       records acc)
  = fold_left
      (fun acc r => addToKey acc (DividendRecord.ticker r) (DividendRecord.amount r))
      records (map tickerPair acc).
Proof.
  revert acc. induction records as [| r records IH]; intros acc; [reflexivity |].
  cbn [fold_left]. rewrite IH, addToTicker_pairs. reflexivity.
Qed.

Lemma by_value_descending (a b : TickerValue.t Q) :
  goes_behind (fun a b => num_sub (TickerValue.value b) (TickerValue.value a)) a b = false
  <-> TickerValue.value b <= TickerValue.value a.
Proof.
  unfold goes_behind. q_red. rewrite negb_false_iff, Qle_bool_iff. split; intros E; lra.
Qed.

(** The contributions by ticker: one entry for every ticker of the
    records and no other, each ticker once, the value of an entry the sum
    of the amounts of the records of its ticker, and the entries in
    descending order of value. *)
Theorem tickerData_groups_by_ticker (records : list (DividendRecord.t Q)) :
  let data := tickerData records in
  NoDup (map TickerValue.name data)
  /\ (forall t : string,
        In t (map TickerValue.name data) <-> In t (map DividendRecord.ticker records))
  /\ (forall e : TickerValue.t Q,
        In e data ->
        TickerValue.value e
        == Qsum (map DividendRecord.amount
                   (filter (fun r => String.eqb (DividendRecord.ticker r)
                                       (TickerValue.name e))
                      records)))
  /\ StronglySorted (fun a b => TickerValue.value b <= TickerValue.value a) data.
Proof.
  intros data.
  set (grouped :=
         fold_left
           (fun acc curr =>
              addToTicker acc (DividendRecord.ticker curr) (DividendRecord.amount curr))
           records []).
  assert (Hperm : Permutation grouped data)
    by (subst data grouped; unfold tickerData; apply Array_sort_permutation).
  assert (Hpairs : map tickerPair grouped
                   = fold_left
                       (fun acc r =>
                          addToKey acc (DividendRecord.ticker r) (DividendRecord.amount r))
                       records [])
    by (subst grouped; rewrite fold_addToTicker_pairs; reflexivity).
  assert (Hnames : forall l : list (TickerValue.t Q),
             map TickerValue.name l = map fst (map tickerPair l))
    by (intros l; rewrite map_map; reflexivity).
  assert (Hnd : NoDup (map TickerValue.name data)).
  { apply (Permutation_NoDup (Permutation_map TickerValue.name Hperm)).
    rewrite Hnames, Hpairs. apply fold_addToKey_NoDup. constructor. }
  split; [exact Hnd | split; [| split]].
  - intros t.
    rewrite <- (Permutation_in' (eq_refl t) (Permutation_map TickerValue.name Hperm)).
    rewrite Hnames, Hpairs, fold_addToKey_keys. cbn [map In]. tauto.
  - intros e He.
    assert (Hin : In (tickerPair e) (map tickerPair data)) by (apply in_map; exact He).
    rewrite Hnames in Hnd.
    rewrite <- (totalOf_single _ _ Hnd Hin).
    rewrite <- (totalOf_perm _ _ _ (Permutation_map tickerPair Hperm)).
    rewrite Hpairs, fold_addToKey_total.
    unfold totalOf at 1. cbn [filter map]. unfold Qsum at 1. cbn [fold_right].
    cbn [tickerPair fst]. ring.
  - subst data. unfold tickerData.
    apply (StronglySorted_weaken
             (fun a b =>
                goes_behind
                  (fun a b => num_sub (TickerValue.value b) (TickerValue.value a)) a b
                = false)).
    + intros a b. apply by_value_descending.
    + apply Array_sort_sorted.
      * intros a b E. apply by_value_descending.
        destruct (Qlt_le_dec (TickerValue.value a) (TickerValue.value b)) as [Hlt | Hle];
          [apply Qlt_le_weak; exact Hlt |].
        apply by_value_descending in Hle. congruence.
      * intros a b c E1 E2. apply by_value_descending in E1, E2.
        apply by_value_descending. lra.
Qed.

End TickerGrouping.

(** ** Fees *)

Section FeeProperties.
Local Open Scope Q_scope.
Import Holding.

Lemma Q_round_le (x y : Q) : x <= y -> Q_round x <= Q_round y.
Proof.
  intros Hxy. unfold Q_round. rewrite <- Zle_Qle. apply Qfloor_resp_le. lra.
Qed.

(** Fees and tax never help. The cost of a holding is at least its
    purchase amount rounded, when that amount is not negative; its present
    value is at most its market value rounded, when that is not negative;
    and a holding quoted at its purchase price shows no profit. *)
Theorem fees_never_help (h : Holding.t Q) :
  (0 <= quantity h * avgPrice h ->
   Q_round (quantity h * avgPrice h) <= calculateCost h)
  /\ (0 <= quantity h * currentPrice h ->
      calculatePresentValue h <= Q_round (quantity h * currentPrice h))
  /\ (0 <= quantity h * avgPrice h -> currentPrice h == avgPrice h ->
      CalculatedHolding.profit (enrichHolding h) <= 0).
Proof.
  assert (Hcost : 0 <= quantity h * avgPrice h ->
                  Q_round (quantity h * avgPrice h) <= calculateCost h).
  { intros Hm. unfold calculateCost, FEE_RATE, FEE_DISCOUNT. q_red.
    apply Q_round_le. nra. }
  assert (Hpv : 0 <= quantity h * currentPrice h ->
                calculatePresentValue h <= Q_round (quantity h * currentPrice h)).
  { intros Hm. unfold calculatePresentValue, FEE_RATE, FEE_DISCOUNT, TAX_RATE_STOCK.
    q_red. apply Q_round_le. destruct (String.eqb _ _); nra. }
  split; [exact Hcost | split; [exact Hpv |]].
  intros Hm Hp.
  assert (Hm' : 0 <= quantity h * currentPrice h) by (rewrite Hp; exact Hm).
  specialize (Hcost Hm). specialize (Hpv Hm').
  assert (E : Q_round (quantity h * currentPrice h) = Q_round (quantity h * avgPrice h))
    by (apply Q_round_comp; rewrite Hp; reflexivity).
  rewrite E in Hpv.
  change (CalculatedHolding.profit (enrichHolding h))
    with (calculatePresentValue h - calculateCost h).
  lra.
Qed.

(** The first holding the application starts with, quoted at its
    purchase price. *)
Lemma fees_never_help_witness :
  CalculatedHolding.profit
    (enrichHolding (Holding.mk "1" "元大台灣50" "0050" AssetType.STOCK 22000 62.35 62.35))
  <= 0.
Proof.
  refine (proj2 (proj2 (fees_never_help
            (Holding.mk "1" "元大台灣50" "0050" AssetType.STOCK 22000 62.35 62.35))) _ _).
  - vm_compute. discriminate.
  - reflexivity.
Defined.

End FeeProperties.
